(** * Stream aggregation glue of vminsert (app/vminsert/common/streamaggr.go)

    A shallow embedding of the rule-set lifecycle (InitStreamAggr,
    reloadStreamAggrConfig, MustStopStreamAggr), of the per-worker
    transformation context (streamAggrCtx.push) and of the feedback writer
    (pushAggregateSeries), with the properties of the specification proved
    or refuted on it.

    Go values are modelled by value: a []byte is a [list byte], a Go string a
    [string], a slice expression [s[n:]] is [drop n s] and [append] is [++].
    Package state (the flags, the metrics, the atomic pointer, the stop
    channel, the wait group) lives in a [World] record that every operation
    threads through a small state-and-crash monad.  Calls that leave this file
    (logger, lib/streamaggr, vmstorage, InsertCtx) are recorded, in order, in
    the world's [trace]. *)

From Stdlib Require Import ZArith Floats.
From Stdlib.Strings Require Import Byte.
From stdpp Require Import base list strings.

Local Open Scope Z_scope.

(** ** Data model *)

(** prompbmarshal.Label *)
Module Label.
Record t : Type := Make { Name : string; Value : string }.
End Label.

(** prompbmarshal.Sample *)
Module Sample.
Record t : Type := Make { Value : float; Timestamp : Z }.
End Sample.

(** prompbmarshal.TimeSeries *)
Module TimeSeries.
Record t : Type := Make { Labels : list Label.t; Samples : list Sample.t }.
End TimeSeries.

(** storage.Tag *)
Module Tag.
Record t : Type := Make { Key : list byte; Value : list byte }.
End Tag.

(** storage.MetricName, the fields this file reads. *)
Module MetricName.
Record t : Type := Make { MetricGroup : list byte; Tags : list Tag.t }.
(** [mn.Reset()] *)
Definition Reset : t := Make [] [].
End MetricName.

(** storage.MetricRow *)
Module MetricRow.
Record t : Type :=
  Make { MetricNameRaw : list byte; Timestamp : Z; Value : float }.
End MetricRow.

(** Modelled from the spec: streamaggr.Aggregators is declared in
    lib/streamaggr, which is not part of the sources at hand.  The spec's
    RuleSetInstance wraps the parsed configuration (rules and options) and is
    compared structurally; [addr] is the identity of the Go pointer, so that
    two instances built from the same configuration are [Equal] and still
    distinct. *)
Module Aggregators.
Record t : Type := Make { addr : nat; rules : string; dedupInterval : Z }.

Definition sameConfig (a b : t) : bool :=
  bool_decide (rules a = rules b) && bool_decide (dedupInterval a = dedupInterval b).

(** [a.Equal(b)] on possibly nil pointers. *)
Definition Equal (a b : option t) : bool :=
  match a, b with
  | None, None => true
  | Some x, Some y => sameConfig x y
  | _, _ => false
  end.
End Aggregators.
Arguments Aggregators.Equal _ _ : simpl never.

(** InsertCtx is declared in insert_ctx.go of the same package; these are the
    fields streamaggr.go touches. *)
Module InsertCtx.
Record t : Type :=
  Make { Labels : list Label.t; mrs : list MetricRow.t; skipStreamAggr : bool }.
(** [var ctx InsertCtx] *)
Definition zero : t := Make [] [] false.
End InsertCtx.

(** ** Observable calls *)

Inductive LogLevel : Type := INFO | ERROR | FATAL | PANIC.

(** What the code asks of its collaborators, in program order. *)
Inductive Event : Type :=
| Log (lvl : LogLevel) (format : string)
| LoadFromFile (path : string) (dedup : Z)
| PtrStore (new : option Aggregators.t)
| PtrSwap (old new : option Aggregators.t)
| AggrPush (sas : Aggregators.t) (tss : list TimeSeries.t) (matchIdxs : list byte)
| AggrMustStop (sas : Aggregators.t)
| SpawnReloader
| WriteDataPoint (labels : list Label.t) (timestamp : Z) (value : float)
| AddRows (rows : list MetricRow.t).

(** A channel of the Go runtime, as far as close and receive-on-closed go. *)
Inductive Chan : Type := NilChan | OpenChan | ClosedChan.

(** The config reloader goroutine. *)
Inductive Goroutine : Type := NotStarted | Running | Exited.

(** How a call can end other than by returning. *)
Inductive Crash : Type :=
| GoPanic (msg : string)      (* a run-time panic or logger.Panicf *)
| FatalExit (msg : string)    (* logger.Fatalf *)
| Deadlock.                   (* blocked with nobody left to wake it *)

(** ** Package state *)

Record World : Type := MkWorld {
  streamAggrConfig : string;
  streamAggrDedupInterval : Z;
  saCfgReloaderStopCh : Chan;
  saCfgReloaderWG : Z;
  reloader : Goroutine;
  saCfgReloads : Z;
  saCfgReloadErr : Z;
  saCfgSuccess : float;
  saCfgTimestamp : Z;
  sasGlobal : option Aggregators.t;
  unixTimestamp : Z;
  trace : list Event
}.

(** The package variables at process start, for given flags and clock. *)
Definition processStart (config : string) (dedup now : Z) : World :=
  MkWorld config dedup NilChan 0 NotStarted 0 0 0%float 0 None now [].

Definition with_stopCh (c : Chan) (w : World) : World :=
  MkWorld (streamAggrConfig w) (streamAggrDedupInterval w) c (saCfgReloaderWG w)
    (reloader w) (saCfgReloads w) (saCfgReloadErr w) (saCfgSuccess w)
    (saCfgTimestamp w) (sasGlobal w) (unixTimestamp w) (trace w).

Definition with_WG (n : Z) (w : World) : World :=
  MkWorld (streamAggrConfig w) (streamAggrDedupInterval w) (saCfgReloaderStopCh w) n
    (reloader w) (saCfgReloads w) (saCfgReloadErr w) (saCfgSuccess w)
    (saCfgTimestamp w) (sasGlobal w) (unixTimestamp w) (trace w).

Definition with_reloader (g : Goroutine) (w : World) : World :=
  MkWorld (streamAggrConfig w) (streamAggrDedupInterval w) (saCfgReloaderStopCh w)
    (saCfgReloaderWG w) g (saCfgReloads w) (saCfgReloadErr w) (saCfgSuccess w)
    (saCfgTimestamp w) (sasGlobal w) (unixTimestamp w) (trace w).

Definition with_reloads (n : Z) (w : World) : World :=
  MkWorld (streamAggrConfig w) (streamAggrDedupInterval w) (saCfgReloaderStopCh w)
    (saCfgReloaderWG w) (reloader w) n (saCfgReloadErr w) (saCfgSuccess w)
    (saCfgTimestamp w) (sasGlobal w) (unixTimestamp w) (trace w).

Definition with_reloadErr (n : Z) (w : World) : World :=
  MkWorld (streamAggrConfig w) (streamAggrDedupInterval w) (saCfgReloaderStopCh w)
    (saCfgReloaderWG w) (reloader w) (saCfgReloads w) n (saCfgSuccess w)
    (saCfgTimestamp w) (sasGlobal w) (unixTimestamp w) (trace w).

Definition with_success (f : float) (w : World) : World :=
  MkWorld (streamAggrConfig w) (streamAggrDedupInterval w) (saCfgReloaderStopCh w)
    (saCfgReloaderWG w) (reloader w) (saCfgReloads w) (saCfgReloadErr w) f
    (saCfgTimestamp w) (sasGlobal w) (unixTimestamp w) (trace w).

Definition with_timestamp (n : Z) (w : World) : World :=
  MkWorld (streamAggrConfig w) (streamAggrDedupInterval w) (saCfgReloaderStopCh w)
    (saCfgReloaderWG w) (reloader w) (saCfgReloads w) (saCfgReloadErr w)
    (saCfgSuccess w) n (sasGlobal w) (unixTimestamp w) (trace w).

Definition with_sasGlobal (p : option Aggregators.t) (w : World) : World :=
  MkWorld (streamAggrConfig w) (streamAggrDedupInterval w) (saCfgReloaderStopCh w)
    (saCfgReloaderWG w) (reloader w) (saCfgReloads w) (saCfgReloadErr w)
    (saCfgSuccess w) (saCfgTimestamp w) p (unixTimestamp w) (trace w).

Definition with_trace (t : list Event) (w : World) : World :=
  MkWorld (streamAggrConfig w) (streamAggrDedupInterval w) (saCfgReloaderStopCh w)
    (saCfgReloaderWG w) (reloader w) (saCfgReloads w) (saCfgReloadErr w)
    (saCfgSuccess w) (saCfgTimestamp w) (sasGlobal w) (unixTimestamp w) t.

(** ** The monad: state passing with crashes *)

Inductive Outcome (A : Type) : Type :=
| Returned (a : A) (w : World)
| Crashed (c : Crash) (w : World).
Arguments Returned {A} a w.
Arguments Crashed {A} c w.

Definition M (A : Type) : Type := World -> Outcome A.

Definition ret {A} (a : A) : M A := fun w => Returned a w.

Definition bind {A B} (m : M A) (k : A -> M B) : M B :=
  fun w => match m w with
           | Returned a w' => k a w'
           | Crashed c w' => Crashed c w'
           end.

Declare Scope go_scope.
Delimit Scope go_scope with go.
Notation "x <- m ;; k" := (bind m (fun x => k))
  (at level 100, m at next level, right associativity) : go_scope.
Notation "m ;;; k" := (bind m (fun _ => k))
  (at level 100, right associativity) : go_scope.

Definition crash {A} (c : Crash) : M A := fun w => Crashed c w.
Definition gets {A} (f : World -> A) : M A := fun w => Returned (f w) w.
Definition modify (f : World -> World) : M unit := fun w => Returned tt (f w).
Definition emit (e : Event) : M unit := modify (fun w => with_trace (trace w ++ [e]) w).

(** The world a call ends in, whichever way it ends. *)
Definition worldOf {A} (o : Outcome A) : World :=
  match o with Returned _ w => w | Crashed _ w => w end.

(** ** Machine integers *)

Definition wrapU64 (z : Z) : Z := z mod 2 ^ 64.
(** Conversion to int64 and int64 arithmetic: two's complement wrap-around. *)
Definition wrapI64 (z : Z) : Z := (z + 2 ^ 63) mod 2 ^ 64 - 2 ^ 63.

Local Open Scope go_scope.

(** A [for _, x := range xs] loop whose body may crash. *)
Fixpoint forRange {A S : Type} (body : S -> A -> M S) (s : S) (xs : list A) : M S :=
  match xs with
  | [] => ret s
  | x :: rest => s' <- body s x ;; forRange body s' rest
  end.

(** ** The active rule set: an atomic pointer *)

(** [sasGlobal.Load()] *)
Definition sasGlobal_Load : M (option Aggregators.t) := gets sasGlobal.

(** [sasGlobal.Store(p)]: one indivisible write. *)
Definition sasGlobal_Store (p : option Aggregators.t) : M unit :=
  modify (fun w => with_sasGlobal p (with_trace (trace w ++ [PtrStore p]) w)).

(** [sasGlobal.Swap(p)]: one indivisible exchange, returning the old value. *)
Definition sasGlobal_Swap (p : option Aggregators.t) : M (option Aggregators.t) :=
  fun w => Returned (sasGlobal w)
             (with_sasGlobal p (with_trace (trace w ++ [PtrSwap (sasGlobal w) p]) w)).

(** Modelled from the spec: [Aggregators.MustStop] of lib/streamaggr.  The
    stop of an instance is a call into the engine; on the empty pointer (a nil
    receiver, as MustStopStreamAggr has after a start without config) there is
    no instance to stop. *)
Definition Aggregators_MustStop (sas : option Aggregators.t) : M unit :=
  match sas with
  | None => ret tt
  | Some a => emit (AggrMustStop a)
  end.

(** The result of one [streamaggr.LoadFromFile] call: the started instance or
    the parse error.  The file is outside the program, so every operation that
    loads takes the result of its (single) load from its caller. *)
Definition LoadResult : Type := Aggregators.t + string.

Definition streamaggr_LoadFromFile (res : LoadResult) : M LoadResult :=
  path <- gets streamAggrConfig ;;
  dedup <- gets streamAggrDedupInterval ;;
  emit (LoadFromFile path dedup) ;;;
  ret res.

(** ** Rule-set lifecycle *)

(** [res] is the result of the load the reload makes. *)
Definition reloadStreamAggrConfig (res : LoadResult) : M unit :=
  emit (Log INFO "reloading -streamAggr.config=%q") ;;;
  modify (fun w => with_reloads (wrapU64 (saCfgReloads w + 1)) w) ;;;
  r <- streamaggr_LoadFromFile res ;;
  match r with
  | inr err =>
      modify (with_success 0%float) ;;;
      modify (fun w => with_reloadErr (wrapU64 (saCfgReloadErr w + 1)) w) ;;;
      emit (Log ERROR
        "cannot reload -streamAggr.config=%q: use the previously loaded config; error: %s")
  | inl sasNew =>
      sas <- sasGlobal_Load ;;
      (if negb (Aggregators.Equal (Some sasNew) sas) then
         sasOld <- sasGlobal_Swap (Some sasNew) ;;
         Aggregators_MustStop sasOld ;;;
         emit (Log INFO "successfully reloaded stream aggregation config at -streamAggr.config=%q")
       else
         emit (Log INFO "nothing changed in -streamAggr.config=%q") ;;;
         Aggregators_MustStop (Some sasNew)) ;;;
      modify (with_success 1%float) ;;;
      now <- gets unixTimestamp ;;
      modify (with_timestamp now)
  end.

(** The reloader goroutine, from the moment it runs until it blocks in its
    [select] or returns.  [sighups] are the loads of the reloads it serves
    first: one per SIGHUP its [select] picks.  With nothing left to serve it
    returns if the stop channel is closed (the deferred [Done] runs) and
    otherwise stays blocked. *)
Fixpoint reloaderRun (sighups : list LoadResult) : M unit :=
  match sighups with
  | res :: rest => reloadStreamAggrConfig res ;;; reloaderRun rest
  | [] =>
      ch <- gets saCfgReloaderStopCh ;;
      match ch with
      | ClosedChan =>
          modify (fun w => with_WG (saCfgReloaderWG w - 1) w) ;;;
          modify (with_reloader Exited)
      | _ => ret tt
      end
  end.

(** [res] is the result of the one load the function makes, if it makes it.
    The SIGHUP channel made before the load is the source of the [sighups]
    of [reloaderRun]. *)
Definition InitStreamAggr (res : LoadResult) : M unit :=
  (* saCfgReloaderStopCh = make(chan struct{}) *)
  modify (with_stopCh OpenChan) ;;;
  config <- gets streamAggrConfig ;;
  (* if *streamAggrConfig == "" { return } *)
  if String.eqb config "" then ret tt
  else
    r <- streamaggr_LoadFromFile res ;;
    match r with
    | inr err =>
        emit (Log FATAL "cannot load -streamAggr.config=%q: %s") ;;;
        crash (FatalExit "cannot load -streamAggr.config")
    | inl sas =>
        sasGlobal_Store (Some sas) ;;;
        modify (with_success 1%float) ;;;
        now <- gets unixTimestamp ;;
        modify (with_timestamp now) ;;;
        (* saCfgReloaderWG.Add(1); go func() { ... }() *)
        modify (fun w => with_WG (saCfgReloaderWG w + 1) w) ;;;
        emit SpawnReloader ;;;
        modify (with_reloader Running)
    end.

(** [saCfgReloaderWG.Wait()]: returns once the counter is zero.  While it is
    not, the only goroutine that can lower it is the reloader. *)
Definition saCfgReloaderWG_Wait (sighups : list LoadResult) : M unit :=
  n <- gets saCfgReloaderWG ;;
  if n =? 0 then ret tt
  else
    g <- gets reloader ;;
    match g with
    | Running =>
        reloaderRun sighups ;;;
        n' <- gets saCfgReloaderWG ;;
        if n' =? 0 then ret tt else crash Deadlock
    | _ => crash Deadlock
    end.

(** [sighups] are the reloads the reloader still serves before its [select]
    picks the closed stop channel. *)
Definition MustStopStreamAggr (sighups : list LoadResult) : M unit :=
  (* close(saCfgReloaderStopCh) *)
  ch <- gets saCfgReloaderStopCh ;;
  match ch with
  | NilChan => crash (GoPanic "close of nil channel")
  | ClosedChan => crash (GoPanic "close of closed channel")
  | OpenChan => modify (with_stopCh ClosedChan)
  end ;;;
  saCfgReloaderWG_Wait sighups ;;;
  sas <- sasGlobal_Swap None ;;
  Aggregators_MustStop sas.

(** CheckStreamAggrConfig: the error it returns, if any.  [res] is the
    result of the load it makes, if it makes it; the instance it loads is
    given a flush callback that does nothing. *)
Definition CheckStreamAggrConfig (res : LoadResult) : M (option string) :=
  config <- gets streamAggrConfig ;;
  (* if *streamAggrConfig == "" { return nil } *)
  if String.eqb config "" then ret None
  else
    r <- streamaggr_LoadFromFile res ;;
    match r with
    | inr err => ret (Some "error when loading -streamAggr.config=%q: %w"%string)
    | inl sas => Aggregators_MustStop (Some sas) ;;; ret None
    end.

(** ** Transformation context *)

Record streamAggrCtx : Type := MkCtx {
  mn : MetricName.t;
  tss : list TimeSeries.t;
  labels : list Label.t;
  samples : list Sample.t;
  buf : list byte
}.

Definition streamAggrCtx_Reset (ctx : streamAggrCtx) : streamAggrCtx :=
  MkCtx MetricName.Reset (take 0 (tss ctx)) (take 0 (labels ctx))
        (take 0 (samples ctx)) (take 0 (buf ctx)).

(** [bytesutil.ToUnsafeString]: the bytes seen as a string, without a copy. *)
Definition ToUnsafeString (b : list byte) : string := String.string_of_list_byte b.

(** [for i := 0; i < len(matchIdxs); i++ { matchIdxs[i] = 0 }], with [todo]
    iterations to go from index [i]. *)
Fixpoint zeroFrom (todo i : nat) (matchIdxs : list byte) : list byte :=
  match todo with
  | O => matchIdxs
  | S todo' => zeroFrom todo' (S i) (<[i := x00]> matchIdxs)
  end.

Definition zeroMatchIdxs (matchIdxs : list byte) : list byte :=
  zeroFrom (length matchIdxs) 0 matchIdxs.

(** The body of [for _, tag := range mn.Tags]. *)
Definition pushTag (acc : list Label.t * list byte) (tag : Tag.t)
  : list Label.t * list byte :=
  let '(labels, buf) := acc in
  let bufLen := length buf in
  let buf := buf ++ Tag.Key tag in
  let name := ToUnsafeString (drop bufLen buf) in
  let bufLen := length buf in
  let buf := buf ++ Tag.Value tag in
  let value := ToUnsafeString (drop bufLen buf) in
  (labels ++ [Label.Make name value], buf).

Section Push.

(** [mn.UnmarshalRaw(src)] of lib/storage: the decoded name, or the error. *)
Variable UnmarshalRaw : list byte -> MetricName.t + string.

(** What a bitmap of [n] entries obtained from [b] holds before it is
    zeroed: bytes of [b], or whatever the reused capacity held. *)
Variable staleBytes : list byte -> nat -> list byte.

(** Whether a series is claimed by a rule of the instance (decided inside
    the engine). *)
Variable ruleMatches : Aggregators.t -> TimeSeries.t -> bool.

(** Modelled from the spec: [bytesutil.ResizeNoCopyMayOverallocate] of
    lib/bytesutil returns a slice of exactly [n] entries, reusing the
    capacity of [b] when it can, with unspecified contents. *)
Definition ResizeNoCopyMayOverallocate (b : list byte) (n : nat) : list byte :=
  take n (staleBytes b n ++ replicate n x00).

(** Modelled from the spec: [Aggregators.Push] of lib/streamaggr.  A rule
    set populates the bitmap it is handed, flagging the rows its rules
    claim, and returns it; with the empty pointer (a nil receiver) pushes
    are pass-through: no instance is reached and the bitmap comes back as
    it went in. *)
Definition Aggregators_Push (sas : option Aggregators.t)
    (tss : list TimeSeries.t) (matchIdxs : list byte) : M (list byte) :=
  match sas with
  | None => ret matchIdxs
  | Some a =>
      emit (AggrPush a tss matchIdxs) ;;;
      ret (imap (fun i b => match tss !! i with
                            | Some ts => if ruleMatches a ts then x01 else b
                            | None => b
                            end) matchIdxs)
  end.

(** The body of [for _, mr := range mrs]; the locals [tss], [labels],
    [samples], [buf] and the scratch name [*mn] are carried in a
    [streamAggrCtx]. *)
Definition pushRow (loc : streamAggrCtx) (mr : MetricRow.t) : M streamAggrCtx :=
  match UnmarshalRaw (MetricRow.MetricNameRaw mr) with
  | inr err =>
      emit (Log PANIC "BUG: cannot unmarshal recently marshaled MetricName: %s") ;;;
      crash (GoPanic "BUG: cannot unmarshal recently marshaled MetricName")
  | inl mn =>
      let labelsLen := length (labels loc) in
      let bufLen := length (buf loc) in
      let buf := buf loc ++ MetricName.MetricGroup mn in
      let metricGroup := ToUnsafeString (drop bufLen buf) in
      let labels := labels loc ++ [Label.Make "__name__" metricGroup] in
      let '(labels, buf) := fold_left pushTag (MetricName.Tags mn) (labels, buf) in
      let samplesLen := length (samples loc) in
      let samples :=
        samples loc ++ [Sample.Make (MetricRow.Value mr) (MetricRow.Timestamp mr)] in
      let tss :=
        tss loc ++ [TimeSeries.Make (drop labelsLen labels) (drop samplesLen samples)] in
      ret (MkCtx mn tss labels samples buf)
  end.

Definition push (ctx : streamAggrCtx) (mrs : list MetricRow.t)
    (matchIdxs : list byte) : M (list byte * streamAggrCtx) :=
  let tssLen := length (tss ctx) in
  ctx <- forRange pushRow ctx mrs ;;
  (* tss = tss[tssLen:] *)
  let tss := drop tssLen (tss ctx) in
  let matchIdxs := ResizeNoCopyMayOverallocate matchIdxs (length tss) in
  let matchIdxs := zeroMatchIdxs matchIdxs in
  (* sas := sasGlobal.Load(); matchIdxs = sas.Push(tss, matchIdxs): the call
     is made whatever the pointer holds *)
  sas <- sasGlobal_Load ;;
  matchIdxs <- Aggregators_Push sas tss matchIdxs ;;
  (* ctx.Reset(); return matchIdxs *)
  ret (matchIdxs, streamAggrCtx_Reset ctx).

End Push.

(** ** Feedback writer *)

(** Modelled from the spec: [InsertCtx.Reset] of insert_ctx.go empties the
    row builder (the argument only sizes the batch) and clears its marks. *)
Definition InsertCtx_Reset (ctx : InsertCtx.t) (rowsLen : nat) : InsertCtx.t :=
  InsertCtx.Make [] [] false.

(** Modelled from the spec: [InsertCtx.AddLabel] of insert_ctx.go adds the
    pair to the labels of the row being built; the label with the empty name
    is the metric group, every other one a tag. *)
Definition InsertCtx_AddLabel (ctx : InsertCtx.t) (name value : string) : InsertCtx.t :=
  InsertCtx.Make (InsertCtx.Labels ctx ++ [Label.Make name value])
                 (InsertCtx.mrs ctx) (InsertCtx.skipStreamAggr ctx).

(** The body of [for _, label := range labels]. *)
Definition addSeriesLabel (ctx : InsertCtx.t) (label : Label.t) : InsertCtx.t :=
  let name := Label.Name label in
  let name := if String.eqb name "__name__" then ""%string else name in
  InsertCtx_AddLabel ctx name (Label.Value label).

Section FeedbackWriter.

(** [storage.MarshalMetricNameRaw(prefix, labels)], reached through
    [WriteDataPoint]. *)
Variable MarshalMetricNameRaw : list byte -> list Label.t -> list byte.

(** Why, if at all, [ctx.WriteDataPoint] refuses to build a row. *)
Variable writeDataPointErr :
  InsertCtx.t -> list Label.t -> Z -> float -> option string.

(** Why, if at all, [vmstorage.AddRows] fails. *)
Variable addRowsErr : list MetricRow.t -> option string.

(** Modelled from the spec: [InsertCtx.WriteDataPoint] of insert_ctx.go
    builds one row into the accumulating batch, or fails and builds
    nothing.  It does not write to storage. *)
Definition InsertCtx_WriteDataPoint (ctx : InsertCtx.t) (prefix : list byte)
    (labels : list Label.t) (timestamp : Z) (value : float)
  : M (InsertCtx.t * option string) :=
  emit (WriteDataPoint labels timestamp value) ;;;
  match writeDataPointErr ctx labels timestamp value with
  | Some err => ret (ctx, Some err)
  | None =>
      let row := MetricRow.Make (MarshalMetricNameRaw prefix labels) timestamp value in
      ret (InsertCtx.Make (InsertCtx.Labels ctx) (InsertCtx.mrs ctx ++ [row])
                          (InsertCtx.skipStreamAggr ctx), None)
  end.

(** [for _, ts := range tss] of pushAggregateSeries.  [None] is the early
    [return] of the function from inside the loop, [Some ctx] the normal
    end of the loop. *)
Fixpoint buildRows (currentTimestamp : Z) (ctx : InsertCtx.t)
    (tss : list TimeSeries.t) : M (option InsertCtx.t) :=
  match tss with
  | [] => ret (Some ctx)
  | ts :: rest =>
      let labels := TimeSeries.Labels ts in
      let ctx := InsertCtx.Make (take 0 (InsertCtx.Labels ctx)) (InsertCtx.mrs ctx)
                                (InsertCtx.skipStreamAggr ctx) in
      let ctx := fold_left addSeriesLabel labels ctx in
      match TimeSeries.Samples ts with
      | [] => crash (GoPanic "index out of range [0] with length 0")
      | s0 :: _ =>
          let value := Sample.Value s0 in
          r <- InsertCtx_WriteDataPoint ctx [] (InsertCtx.Labels ctx)
                 currentTimestamp value ;;
          match r with
          | (_, Some err) =>
              emit (Log ERROR "cannot store aggregate series: %s") ;;;
              ret None
          | (ctx, None) => buildRows currentTimestamp ctx rest
          end
      end
  end.

(** The function up to the end of its loop: the clock read, the fresh
    insert context and the rows built into it. *)
Definition buildAggregateRows (tss : list TimeSeries.t) : M (option InsertCtx.t) :=
  now <- gets unixTimestamp ;;
  let currentTimestamp := wrapI64 (wrapI64 now * 1000) in
  let ctx := InsertCtx.zero in
  let ctx := InsertCtx_Reset ctx (length tss) in
  let ctx := InsertCtx.Make (InsertCtx.Labels ctx) (InsertCtx.mrs ctx) true in
  buildRows currentTimestamp ctx tss.

Definition pushAggregateSeries (tss : list TimeSeries.t) : M unit :=
  r <- buildAggregateRows tss ;;
  match r with
  | None => ret tt
  | Some ctx =>
      emit (AddRows (InsertCtx.mrs ctx)) ;;;
      match addRowsErr (InsertCtx.mrs ctx) with
      | Some err => emit (Log ERROR "cannot flush aggregate series: %s")
      | None => ret tt
      end
  end.

End FeedbackWriter.

(** ** Reference descriptions used in the statements *)

(** The label a decoded tag pair stands for. *)
Definition tagLabel (tag : Tag.t) : Label.t :=
  Label.Make (ToUnsafeString (Tag.Key tag)) (ToUnsafeString (Tag.Value tag)).

(** The series a row with decoded name [mn] stands for: the name label, the
    tags in order, one sample. *)
Definition rowSeries (mn : MetricName.t) (mr : MetricRow.t) : TimeSeries.t :=
  TimeSeries.Make
    (Label.Make "__name__" (ToUnsafeString (MetricName.MetricGroup mn))
       :: map tagLabel (MetricName.Tags mn))
    [Sample.Make (MetricRow.Value mr) (MetricRow.Timestamp mr)].

(** The bytes a decoded name adds to the arena. *)
Definition nameBytes (mn : MetricName.t) : list byte :=
  MetricName.MetricGroup mn
    ++ concat (map (fun tag => Tag.Key tag ++ Tag.Value tag) (MetricName.Tags mn)).

(** The name of row [mr] decodes, to [mn]. *)
Definition decodesTo (UnmarshalRaw : list byte -> MetricName.t + string)
    (mr : MetricRow.t) (mn : MetricName.t) : Prop :=
  UnmarshalRaw (MetricRow.MetricNameRaw mr) = inl mn.

(** Calls that reach a rule-set instance. *)
Definition reachesInstance (e : Event) : bool :=
  match e with
  | AggrPush _ _ _ | AggrMustStop _ => true
  | _ => false
  end.

Definition engineCalls (t : list Event) : list Event :=
  List.filter reachesInstance t.

(** Writes of the active pointer. *)
Definition writesPointer (e : Event) : bool :=
  match e with
  | PtrStore _ | PtrSwap _ _ => true
  | _ => false
  end.

(** The value a [sasGlobal.Load()] returns once the events [evs] have
    happened, if it returned [p] before them. *)
Definition pointerAfter (p : option Aggregators.t) (evs : list Event)
  : option Aggregators.t :=
  fold_left (fun p e => match e with
                        | PtrStore q => q
                        | PtrSwap _ q => q
                        | _ => p
                        end) evs p.

(** The events a call added to the trace. *)
Definition newEvents {A} (w : World) (o : Outcome A) : list Event :=
  drop (length (trace w)) (trace (worldOf o)).

(** The label the feedback writer adds for a label of an aggregate series. *)
Definition rowLabel (label : Label.t) : Label.t :=
  Label.Make (if String.eqb (Label.Name label) "__name__" then ""%string
              else Label.Name label)
             (Label.Value label).

(** The value of the first sample of a series, if it has one. *)
Definition firstValue (ts : TimeSeries.t) : option float :=
  match TimeSeries.Samples ts with
  | [] => None
  | s0 :: _ => Some (Sample.Value s0)
  end.

(** The insert context at the moment the row of [ts] is requested, when the
    rows [done] were built before it. *)
Definition ctxAt (done : list MetricRow.t) (ts : TimeSeries.t) : InsertCtx.t :=
  InsertCtx.Make (map rowLabel (TimeSeries.Labels ts)) done true.

(** The initialisation claim as the specification words it: without a config
    source the pointer stays empty and the listener is started all the same. *)
Definition startsListenerWithoutConfig (res : LoadResult) (w : World) : Prop :=
  streamAggrConfig w = ""%string ->
  sasGlobal w = None ->
  sasGlobal (worldOf (InitStreamAggr res w)) = None
  /\ reloader (worldOf (InitStreamAggr res w)) = Running.

(** The timestamp the feedback writer stamps its rows with. *)
Definition flushTimestamp (w : World) : Z :=
  wrapI64 (wrapI64 (unixTimestamp w) * 1000).

Section FeedbackReference.

Variable MarshalMetricNameRaw : list byte -> list Label.t -> list byte.
Variable writeDataPointErr :
  InsertCtx.t -> list Label.t -> Z -> float -> option string.

(** The row of an aggregate series whose first sample has value [v], built
    at time [t]. *)
Definition seriesRow (t : Z) (ts : TimeSeries.t) (v : float) : MetricRow.t :=
  MetricRow.Make (MarshalMetricNameRaw [] (map rowLabel (TimeSeries.Labels ts))) t v.

(** The row request made for a series: none if it has no sample. *)
Definition requestOf (t : Z) (ts : TimeSeries.t) : list Event :=
  match firstValue ts with
  | Some v => [WriteDataPoint (map rowLabel (TimeSeries.Labels ts)) t v]
  | None => []
  end.

(** [builtFrom t done tss rows]: with the rows [done] in the batch, every
    series of [tss] in turn has a first sample and gets its row built
    without error, which leaves the batch at [rows]. *)
Inductive builtFrom (t : Z)
  : list MetricRow.t -> list TimeSeries.t -> list MetricRow.t -> Prop :=
| builtFrom_nil (done : list MetricRow.t) : builtFrom t done [] done
| builtFrom_cons (done : list MetricRow.t) (ts : TimeSeries.t) (v : float)
    (tss : list TimeSeries.t) (rows : list MetricRow.t) :
    firstValue ts = Some v ->
    writeDataPointErr (ctxAt done ts) (map rowLabel (TimeSeries.Labels ts)) t v = None ->
    builtFrom t (done ++ [seriesRow t ts v]) tss rows ->
    builtFrom t done (ts :: tss) rows.

(** Building the row of [ts] fails, with the rows [done] in the batch. *)
Definition buildFails (t : Z) (done : list MetricRow.t) (ts : TimeSeries.t) : Prop :=
  exists v err,
    firstValue ts = Some v
    /\ writeDataPointErr (ctxAt done ts) (map rowLabel (TimeSeries.Labels ts)) t v
       = Some err.

End FeedbackReference.

(** What the feedback writer may ask of its collaborators while it builds
    the rows of [tss] at time [t]: the row of one of the series, from its
    renamed labels, [t] and the value of its first sample, or the log line
    of a failed build. *)
Definition buildEvent (t : Z) (tss : list TimeSeries.t) (e : Event) : Prop :=
  (exists ts v, ts ∈ tss /\ firstValue ts = Some v
                /\ e = WriteDataPoint (map rowLabel (TimeSeries.Labels ts)) t v)
  \/ e = Log ERROR "cannot store aggregate series: %s".

(** A series cut down to its first sample. *)
Definition firstSampleOnly (ts : TimeSeries.t) : TimeSeries.t :=
  TimeSeries.Make (TimeSeries.Labels ts) (take 1 (TimeSeries.Samples ts)).

Definition isAddRows (e : Event) : bool :=
  match e with AddRows _ => true | _ => false end.

Definition isErrorLog (e : Event) : bool :=
  match e with Log ERROR _ => true | _ => false end.

Definition isWriteDataPoint (e : Event) : bool :=
  match e with WriteDataPoint _ _ _ => true | _ => false end.

(** The instances stopped so far, in the order of their stops. *)
Definition stoppedInstances (t : list Event) : list Aggregators.t :=
  omap (fun e => match e with AggrMustStop a => Some a | _ => None end) t.

(** The instances a series of loads produced. *)
Definition loadedInstances (ress : list LoadResult) : list Aggregators.t :=
  omap (fun r => match r with inl a => Some a | inr _ => None end) ress.

(** The number of loads of a series that failed. *)
Definition failedLoads (ress : list LoadResult) : nat :=
  length (List.filter (fun r => match r with inr _ => true | inl _ => false end) ress).

(** The instance the pointer holds, as a list of at most one. *)
Definition activeInstance (w : World) : list Aggregators.t :=
  option_list (sasGlobal w).

(** [w'] differs from [w] in its trace at most: flags, channel, wait group,
    reloader, metrics, pointer and clock are those of [w]. *)
Definition samePackageState (w w' : World) : Prop :=
  with_trace (trace w) w' = w.

(** [w'] has the flags, the stop channel, the wait group, the reloader and
    the clock of [w]. *)
Definition sameLifecycle (w w' : World) : Prop :=
  streamAggrConfig w' = streamAggrConfig w
  /\ streamAggrDedupInterval w' = streamAggrDedupInterval w
  /\ saCfgReloaderStopCh w' = saCfgReloaderStopCh w
  /\ saCfgReloaderWG w' = saCfgReloaderWG w
  /\ reloader w' = reloader w
  /\ unixTimestamp w' = unixTimestamp w.

(** A uint64 metric holds a value of its type. *)
Definition isU64 (z : Z) : Prop := 0 <= z < 2 ^ 64.

(** What the success gauge shows after a reload with the given load. *)
Definition gaugeAfter (res : LoadResult) : float :=
  match res with inl _ => 1%float | inr _ => 0%float end.

(** The panic of [push] on a row whose name does not decode. *)
Definition decodePanic : Crash :=
  GoPanic "BUG: cannot unmarshal recently marshaled MetricName".

(** ** Concrete collaborators and inputs, for the examples *)

Definition cpuHost (host : string) : MetricName.t :=
  MetricName.Make (String.list_byte_of_string "cpu")
    [Tag.Make (String.list_byte_of_string "host") (String.list_byte_of_string host)].

(** A decoder that knows two encoded names. *)
Definition demoUnmarshalRaw (raw : list byte) : MetricName.t + string :=
  match raw with
  | [x01] => inl (cpuHost "a")
  | [x02] => inl (cpuHost "b")
  | _ => inr "cannot unmarshal MetricName"%string
  end.

Definition demoStale (b : list byte) (n : nat) : list byte := b.

Definition demoMatches (a : Aggregators.t) (ts : TimeSeries.t) : bool :=
  bool_decide (length (TimeSeries.Labels ts) = 2%nat).

(** [cpu{host="a"} 1 @1000] and [cpu{host="b"} 2 @2000] *)
Definition demoRows : list MetricRow.t :=
  [MetricRow.Make [x01] 1000 1%float; MetricRow.Make [x02] 2000 2%float].

Definition demoSas : Aggregators.t := Aggregators.Make 1 "- interval: 1m" 0.

(** The same configuration parsed again: equal, but another instance. *)
Definition demoSasAgain : Aggregators.t := Aggregators.Make 2 "- interval: 1m" 0.

(** Another configuration. *)
Definition demoSasOther : Aggregators.t := Aggregators.Make 3 "- interval: 5m" 0.

Definition emptyCtx : streamAggrCtx := MkCtx MetricName.Reset [] [] [] [].

(** A process started without [-streamAggr.config]. *)
Definition demoDisabled : World := processStart "" 0 1700000000.

(** A process running with [demoSas] active and its reloader waiting. *)
Definition demoEnabled : World :=
  MkWorld "aggr.yaml" 0 OpenChan 1 Running 0 0 1%float 1700000000 (Some demoSas)
          1700000060 [].

(** A name encoding for the examples: each label as name, 0x00, value, 0x01. *)
Definition demoMarshal (prefix : list byte) (labels : list Label.t) : list byte :=
  prefix ++ concat (map (fun l => String.list_byte_of_string (Label.Name l) ++ [x00]
                                  ++ String.list_byte_of_string (Label.Value l) ++ [x01])
                        labels).

(** A row builder that refuses series without labels. *)
Definition demoWriteErr (ctx : InsertCtx.t) (labels : list Label.t) (t : Z) (v : float)
  : option string :=
  match labels with
  | [] => Some "missing labels"%string
  | _ => None
  end.

Definition demoAddRowsErr (rows : list MetricRow.t) : option string := None.

Definition aggrSeries (name : string) (v : float) : TimeSeries.t :=
  TimeSeries.Make [Label.Make "__name__" name; Label.Make "host" "a"]
                  [Sample.Make v 1000; Sample.Make 99%float 2000].

(** Five aggregate outputs; the row of the third cannot be built. *)
Definition demoBuilt : list TimeSeries.t :=
  [aggrSeries "cpu:1m_sum" 1%float; aggrSeries "mem:1m_sum" 2%float].

Definition demoRefused : TimeSeries.t :=
  TimeSeries.Make [] [Sample.Make 3%float 1000].

Definition demoRest : list TimeSeries.t :=
  [aggrSeries "net:1m_sum" 4%float; aggrSeries "disk:1m_sum" 5%float].

Definition demoOutputs : list TimeSeries.t := demoBuilt ++ demoRefused :: demoRest.

(** The log line of a failed storage write, if it fails. *)
Definition flushLog (addRowsErr : list MetricRow.t -> option string)
    (rows : list MetricRow.t) : list Event :=
  match addRowsErr rows with
  | Some _ => [Log ERROR "cannot flush aggregate series: %s"]
  | None => []
  end.

(** Two aggregate outputs that build, then one without samples. *)
Definition demoNoSample : list TimeSeries.t :=
  [aggrSeries "cpu:1m_sum" 1%float;
   TimeSeries.Make [Label.Make "__name__" "mem:1m_sum"] []].

(** Three rows, the second of which does not decode. *)
Definition demoBadRows : list MetricRow.t :=
  [MetricRow.Make [x01] 1000 1%float; MetricRow.Make [x09] 1500 7%float;
   MetricRow.Make [x02] 2000 2%float].

(** ** The zeroed bitmap *)

Lemma zeroFrom_spec (todo i : nat) (m : list byte) :
  (i + todo)%nat = length m ->
  zeroFrom todo i m = take i m ++ replicate todo x00.
Proof.
  revert i m. induction todo as [|todo IH]; intros i m Hlen; simpl.
  - rewrite app_nil_r, take_ge; [done | lia].
  - rewrite IH by (rewrite length_insert; lia).
    assert (Hi : (<[i:=x00]> m) !! i = Some x00)
      by (apply list_lookup_insert_eq; lia).
    rewrite (take_S_r _ _ _ Hi), take_insert_ge by lia.
    by rewrite <- app_assoc.
Qed.

Lemma zeroMatchIdxs_spec (m : list byte) :
  zeroMatchIdxs m = replicate (length m) x00.
Proof. unfold zeroMatchIdxs. by rewrite zeroFrom_spec. Qed.

Lemma length_ResizeNoCopyMayOverallocate stale (b : list byte) (n : nat) :
  length (ResizeNoCopyMayOverallocate stale b n) = n.
Proof.
  unfold ResizeNoCopyMayOverallocate.
  rewrite length_take, length_app, length_replicate. lia.
Qed.

Lemma zeroed_resized stale (b : list byte) (n : nat) :
  zeroMatchIdxs (ResizeNoCopyMayOverallocate stale b n) = replicate n x00.
Proof. by rewrite zeroMatchIdxs_spec, length_ResizeNoCopyMayOverallocate. Qed.

(** ** The conversion loop *)

Lemma fold_pushTag (tags : list Tag.t) (ls : list Label.t) (b : list byte) :
  fold_left pushTag tags (ls, b)
  = (ls ++ map tagLabel tags,
     b ++ concat (map (fun tag => Tag.Key tag ++ Tag.Value tag) tags)).
Proof.
  revert ls b. induction tags as [|tag tags IH]; intros ls b; simpl.
  - by rewrite !app_nil_r.
  - rewrite !drop_app_length. rewrite IH. unfold tagLabel.
    by rewrite <- !app_assoc.
Qed.

Section PushFacts.

Variable UnmarshalRaw : list byte -> MetricName.t + string.
Variable staleBytes : list byte -> nat -> list byte.
Variable ruleMatches : Aggregators.t -> TimeSeries.t -> bool.

Lemma pushRow_decoded loc mr mn w :
  decodesTo UnmarshalRaw mr mn ->
  pushRow UnmarshalRaw loc mr w
  = Returned (MkCtx mn (tss loc ++ [rowSeries mn mr])
                (labels loc ++ TimeSeries.Labels (rowSeries mn mr))
                (samples loc ++ TimeSeries.Samples (rowSeries mn mr))
                (buf loc ++ nameBytes mn)) w.
Proof.
  intros Hdec. unfold pushRow, decodesTo in *. rewrite Hdec.
  rewrite fold_pushTag. unfold ret, rowSeries, nameBytes. simpl.
  rewrite !drop_app_length. rewrite <- !app_assoc. simpl.
  by rewrite !drop_app_length.
Qed.

(** After the loop the series of the batch sit behind the ones the context
    held on entry, in the order of the rows. *)
Lemma forRange_pushRow loc mrs mns w :
  Forall2 (decodesTo UnmarshalRaw) mrs mns ->
  exists loc',
    forRange (pushRow UnmarshalRaw) loc mrs w = Returned loc' w
    /\ tss loc' = tss loc ++ zip_with rowSeries mns mrs.
Proof.
  intros Hdec. revert loc. induction Hdec as [|mr mn mrs mns Hd _ IH]; intros loc.
  - exists loc. simpl. by rewrite app_nil_r.
  - simpl. unfold bind. rewrite (pushRow_decoded _ _ _ _ Hd).
    destruct (IH (MkCtx mn (tss loc ++ [rowSeries mn mr])
                (labels loc ++ TimeSeries.Labels (rowSeries mn mr))
                (samples loc ++ TimeSeries.Samples (rowSeries mn mr))
                (buf loc ++ nameBytes mn))) as (loc' & Hrun & Htss).
    exists loc'. split; [done |]. rewrite Htss. simpl. by rewrite <- app_assoc.
Qed.

Lemma length_rowSeries (mrs : list MetricRow.t) (mns : list MetricName.t) :
  Forall2 (decodesTo UnmarshalRaw) mrs mns ->
  length (zip_with rowSeries mns mrs) = length mrs.
Proof.
  intros Hdec. apply Forall2_length in Hdec.
  rewrite length_zip_with. lia.
Qed.

(** What [push] evaluates to on a batch that decodes, whatever the pointer
    holds. *)
Lemma push_decoded ctx mrs mns matchIdxs w :
  Forall2 (decodesTo UnmarshalRaw) mrs mns ->
  exists ctx',
    push UnmarshalRaw staleBytes ruleMatches ctx mrs matchIdxs w
    = bind (Aggregators_Push ruleMatches (sasGlobal w) (zip_with rowSeries mns mrs)
              (replicate (length mrs) x00))
           (fun m => ret (m, streamAggrCtx_Reset ctx')) w.
Proof.
  intros Hdec.
  destruct (forRange_pushRow ctx mrs mns w Hdec) as (ctx' & Hrun & Htss).
  exists ctx'. unfold push. unfold bind at 1. rewrite Hrun.
  rewrite Htss, drop_app_length, zeroed_resized.
  rewrite (length_rowSeries _ _ Hdec).
  unfold sasGlobal_Load, gets. unfold bind at 1. reflexivity.
Qed.

End PushFacts.

(** ** Pushing a batch *)

(** The end-to-end scenario of the specification, run on the model: the two
    rows reach the active rule set as two series of two labels and one
    sample, in the order of the rows, with a zeroed bitmap. *)
Example push_two_rows :
  push demoUnmarshalRaw demoStale demoMatches emptyCtx demoRows [x05] demoEnabled
  = Returned ([x01; x01], emptyCtx)
      (with_trace
         [AggrPush demoSas
            [TimeSeries.Make [Label.Make "__name__" "cpu"; Label.Make "host" "a"]
                             [Sample.Make 1%float 1000];
             TimeSeries.Make [Label.Make "__name__" "cpu"; Label.Make "host" "b"]
                             [Sample.Make 2%float 2000]]
            [x00; x00]]
         demoEnabled).
Proof. reflexivity. Qed.

(** C1. With no active rule set (the pointer is empty), a push of N rows
    whose names decode returns a bitmap of N zero entries and leaves the
    world as it was: nothing is added to the trace, so no call reaches a
    rule-set instance. *)
Theorem push_disabled_returns_zero_bitmap
    (UnmarshalRaw : list byte -> MetricName.t + string)
    (staleBytes : list byte -> nat -> list byte)
    (ruleMatches : Aggregators.t -> TimeSeries.t -> bool)
    (ctx : streamAggrCtx) (mrs : list MetricRow.t) (mns : list MetricName.t)
    (matchIdxs : list byte) (w : World) :
  sasGlobal w = None ->
  Forall2 (decodesTo UnmarshalRaw) mrs mns ->
  exists ctx',
    push UnmarshalRaw staleBytes ruleMatches ctx mrs matchIdxs w
    = Returned (replicate (length mrs) x00, ctx') w
    /\ length (replicate (length mrs) x00) = length mrs
    /\ newEvents w (push UnmarshalRaw staleBytes ruleMatches ctx mrs matchIdxs w) = [].
Proof.
  intros Hnil Hdec.
  destruct (push_decoded UnmarshalRaw staleBytes ruleMatches ctx mrs mns matchIdxs w Hdec)
    as (ctx' & Hpush).
  exists (streamAggrCtx_Reset ctx'). rewrite Hpush, Hnil.
  split; [reflexivity |]. split; [apply length_replicate |].
  unfold newEvents. simpl. by rewrite drop_all.
Qed.

Lemma push_disabled_returns_zero_bitmap_witness :
  exists ctx',
    push demoUnmarshalRaw demoStale demoMatches emptyCtx demoRows [x05; x07; x09] demoDisabled
    = Returned (replicate (length demoRows) x00, ctx') demoDisabled
    /\ length (replicate (length demoRows) x00) = length demoRows
    /\ newEvents demoDisabled
         (push demoUnmarshalRaw demoStale demoMatches emptyCtx demoRows [x05; x07; x09]
               demoDisabled) = [].
Proof.
  apply (push_disabled_returns_zero_bitmap demoUnmarshalRaw demoStale demoMatches
           emptyCtx demoRows [cpuHost "a"; cpuHost "b"] [x05; x07; x09] demoDisabled).
  - reflexivity.
  - repeat constructor.
Defined.

(** C6. With a rule set active, a push of N rows whose names decode hands
    that rule set exactly N series, in the order of the rows, together with
    a bitmap of N zero entries; the series of a row is [rowSeries]: the
    "__name__" label holding the metric group, one label per decoded tag in
    order, and the one sample of the row.  The bitmap that comes back has N
    entries too. *)
Theorem push_enabled_hands_rows_in_order
    (UnmarshalRaw : list byte -> MetricName.t + string)
    (staleBytes : list byte -> nat -> list byte)
    (ruleMatches : Aggregators.t -> TimeSeries.t -> bool)
    (ctx : streamAggrCtx) (mrs : list MetricRow.t) (mns : list MetricName.t)
    (matchIdxs : list byte) (w : World) (sas : Aggregators.t) :
  sasGlobal w = Some sas ->
  Forall2 (decodesTo UnmarshalRaw) mrs mns ->
  exists out ctx',
    push UnmarshalRaw staleBytes ruleMatches ctx mrs matchIdxs w
    = Returned (out, ctx')
        (with_trace (trace w ++ [AggrPush sas (zip_with rowSeries mns mrs)
                                               (replicate (length mrs) x00)]) w)
    /\ length (zip_with rowSeries mns mrs) = length mrs
    /\ length out = length mrs
    /\ (forall i mr mn, mrs !! i = Some mr -> mns !! i = Some mn ->
          zip_with rowSeries mns mrs !! i
          = Some (TimeSeries.Make
                    (Label.Make "__name__" (ToUnsafeString (MetricName.MetricGroup mn))
                       :: map tagLabel (MetricName.Tags mn))
                    [Sample.Make (MetricRow.Value mr) (MetricRow.Timestamp mr)])).
Proof.
  intros Hsas Hdec.
  destruct (push_decoded UnmarshalRaw staleBytes ruleMatches ctx mrs mns matchIdxs w Hdec)
    as (ctx' & Hpush).
  eexists _, (streamAggrCtx_Reset ctx'). rewrite Hpush, Hsas.
  split; [reflexivity |].
  split; [by apply (length_rowSeries UnmarshalRaw) |].
  split.
  - by rewrite length_imap, length_replicate.
  - intros i mr mn Hmr Hmn. rewrite lookup_zip_with, Hmn. simpl. by rewrite Hmr.
Qed.

Lemma push_enabled_hands_rows_in_order_witness :
  exists out ctx',
    push demoUnmarshalRaw demoStale demoMatches emptyCtx demoRows [x05] demoEnabled
    = Returned (out, ctx')
        (with_trace (trace demoEnabled
                       ++ [AggrPush demoSas
                             (zip_with rowSeries [cpuHost "a"; cpuHost "b"] demoRows)
                             (replicate (length demoRows) x00)]) demoEnabled)
    /\ length (zip_with rowSeries [cpuHost "a"; cpuHost "b"] demoRows) = length demoRows
    /\ length out = length demoRows
    /\ (forall i mr mn, demoRows !! i = Some mr ->
          [cpuHost "a"; cpuHost "b"] !! i = Some mn ->
          zip_with rowSeries [cpuHost "a"; cpuHost "b"] demoRows !! i
          = Some (TimeSeries.Make
                    (Label.Make "__name__" (ToUnsafeString (MetricName.MetricGroup mn))
                       :: map tagLabel (MetricName.Tags mn))
                    [Sample.Make (MetricRow.Value mr) (MetricRow.Timestamp mr)])).
Proof.
  apply (push_enabled_hands_rows_in_order demoUnmarshalRaw demoStale demoMatches
           emptyCtx demoRows [cpuHost "a"; cpuHost "b"] [x05] demoEnabled demoSas).
  - reflexivity.
  - repeat constructor.
Defined.

(** ** Reloading *)

Lemma newEvents_Returned {A} (a : A) (w w' : World) (evs : list Event) :
  trace w' = trace w ++ evs -> newEvents w (Returned a w') = evs.
Proof. intros H. unfold newEvents. simpl. by rewrite H, drop_app_length. Qed.

(** C3. A reload whose candidate is structurally equal to the active
    instance leaves the pointer holding that very instance (no write of the
    pointer happens), stops the candidate, counts the attempt, and refreshes
    the success gauge and the success timestamp. *)
Theorem reload_equal_config_keeps_instance
    (w : World) (sasNew active : Aggregators.t) :
  sasGlobal w = Some active ->
  Aggregators.Equal (Some sasNew) (Some active) = true ->
  exists w',
    reloadStreamAggrConfig (inl sasNew) w = Returned tt w'
    /\ sasGlobal w' = Some active
    /\ trace w'
       = trace w ++ [Log INFO "reloading -streamAggr.config=%q";
                     LoadFromFile (streamAggrConfig w) (streamAggrDedupInterval w);
                     Log INFO "nothing changed in -streamAggr.config=%q";
                     AggrMustStop sasNew]
    /\ saCfgReloads w' = wrapU64 (saCfgReloads w + 1)
    /\ saCfgReloadErr w' = saCfgReloadErr w
    /\ saCfgSuccess w' = 1%float
    /\ saCfgTimestamp w' = unixTimestamp w.
Proof.
  intros Hact Heq. eexists.
  unfold reloadStreamAggrConfig, streamaggr_LoadFromFile, sasGlobal_Load,
    Aggregators_MustStop, bind, emit, modify, gets, ret. simpl.
  rewrite Hact, Heq. simpl. split; [reflexivity |]. simpl.
  rewrite <- !app_assoc. simpl. by repeat split.
Qed.

Lemma reload_equal_config_keeps_instance_witness :
  exists w',
    reloadStreamAggrConfig (inl demoSasAgain) demoEnabled = Returned tt w'
    /\ sasGlobal w' = Some demoSas
    /\ trace w'
       = trace demoEnabled
           ++ [Log INFO "reloading -streamAggr.config=%q";
               LoadFromFile (streamAggrConfig demoEnabled)
                            (streamAggrDedupInterval demoEnabled);
               Log INFO "nothing changed in -streamAggr.config=%q";
               AggrMustStop demoSasAgain]
    /\ saCfgReloads w' = wrapU64 (saCfgReloads demoEnabled + 1)
    /\ saCfgReloadErr w' = saCfgReloadErr demoEnabled
    /\ saCfgSuccess w' = 1%float
    /\ saCfgTimestamp w' = unixTimestamp demoEnabled.
Proof.
  apply (reload_equal_config_keeps_instance demoEnabled demoSasAgain demoSas);
    reflexivity.
Defined.

(** C4. A reload whose parse fails returns normally, leaves the pointer
    as it was, makes no call that reaches a rule-set instance, counts the
    attempt and the error, sets the success gauge to 0 and leaves the success
    timestamp alone. *)
Theorem reload_parse_failure_keeps_active (w : World) (err : string) :
  exists w',
    reloadStreamAggrConfig (inr err) w = Returned tt w'
    /\ sasGlobal w' = sasGlobal w
    /\ trace w'
       = trace w ++ [Log INFO "reloading -streamAggr.config=%q";
                     LoadFromFile (streamAggrConfig w) (streamAggrDedupInterval w);
                     Log ERROR
                       "cannot reload -streamAggr.config=%q: use the previously loaded config; error: %s"]
    /\ engineCalls (trace w') = engineCalls (trace w)
    /\ saCfgReloads w' = wrapU64 (saCfgReloads w + 1)
    /\ saCfgReloadErr w' = wrapU64 (saCfgReloadErr w + 1)
    /\ saCfgSuccess w' = 0%float
    /\ saCfgTimestamp w' = saCfgTimestamp w.
Proof.
  eexists.
  unfold reloadStreamAggrConfig, streamaggr_LoadFromFile, bind, emit, modify, gets, ret.
  simpl. split; [reflexivity |]. simpl.
  rewrite <- !app_assoc. simpl. repeat split.
  unfold engineCalls. rewrite List.filter_app. simpl. by rewrite app_nil_r.
Qed.

(** C5. A reload whose candidate differs structurally from the active
    instance writes the pointer exactly once, by one swap to the candidate,
    and stops the instance the swap returned only after it: at every point
    of the reload a load of the pointer yields the old or the new instance,
    and once the stop has been issued it yields the new one. *)
Theorem reload_changed_config_swaps_then_stops
    (w : World) (sasNew active : Aggregators.t) :
  sasGlobal w = Some active ->
  Aggregators.Equal (Some sasNew) (Some active) = false ->
  exists w' evs,
    reloadStreamAggrConfig (inl sasNew) w = Returned tt w'
    /\ sasGlobal w' = Some sasNew
    /\ trace w' = trace w ++ evs
    /\ evs = [Log INFO "reloading -streamAggr.config=%q";
              LoadFromFile (streamAggrConfig w) (streamAggrDedupInterval w);
              PtrSwap (Some active) (Some sasNew);
              AggrMustStop active;
              Log INFO
                "successfully reloaded stream aggregation config at -streamAggr.config=%q"]
    /\ List.filter writesPointer evs = [PtrSwap (Some active) (Some sasNew)]
    /\ (forall k, pointerAfter (Some active) (take k evs) = Some active
                  \/ pointerAfter (Some active) (take k evs) = Some sasNew)
    /\ (forall k, AggrMustStop active ∈ take k evs ->
                  pointerAfter (Some active) (take k evs) = Some sasNew).
Proof.
  intros Hact Hne. eexists _, _.
  unfold reloadStreamAggrConfig, streamaggr_LoadFromFile, sasGlobal_Load, sasGlobal_Swap,
    Aggregators_MustStop, bind, emit, modify, gets, ret. simpl.
  rewrite Hact, Hne. simpl. rewrite Hact. simpl.
  split; [reflexivity |]. simpl. split; [reflexivity |].
  split; [by rewrite <- !app_assoc |]. split; [reflexivity |].
  split; [reflexivity |]. split.
  - intros k. destruct k as [|[|[|[|[|[|k]]]]]]; simpl; auto.
  - intros k Hin. destruct k as [|[|[|[|[|[|k]]]]]]; try reflexivity; exfalso;
      simpl in Hin;
      repeat (apply elem_of_cons in Hin as [Hin | Hin]; [discriminate |]);
      by apply elem_of_nil in Hin.
Qed.

Lemma reload_changed_config_swaps_then_stops_witness :
  exists w' evs,
    reloadStreamAggrConfig (inl demoSasOther) demoEnabled = Returned tt w'
    /\ sasGlobal w' = Some demoSasOther
    /\ trace w' = trace demoEnabled ++ evs
    /\ evs = [Log INFO "reloading -streamAggr.config=%q";
              LoadFromFile (streamAggrConfig demoEnabled)
                           (streamAggrDedupInterval demoEnabled);
              PtrSwap (Some demoSas) (Some demoSasOther);
              AggrMustStop demoSas;
              Log INFO
                "successfully reloaded stream aggregation config at -streamAggr.config=%q"]
    /\ List.filter writesPointer evs = [PtrSwap (Some demoSas) (Some demoSasOther)]
    /\ (forall k, pointerAfter (Some demoSas) (take k evs) = Some demoSas
                  \/ pointerAfter (Some demoSas) (take k evs) = Some demoSasOther)
    /\ (forall k, AggrMustStop demoSas ∈ take k evs ->
                  pointerAfter (Some demoSas) (take k evs) = Some demoSasOther).
Proof.
  apply (reload_changed_config_swaps_then_stops demoEnabled demoSasOther demoSas);
    reflexivity.
Defined.

(** ** Start without a configuration, and shutdown *)

(** C2, as the specification words it, fails: started without
    [-streamAggr.config], InitStreamAggr returns before it reaches the
    [go] statement, so no listener runs. *)
Lemma init_without_config_listener_counterexample :
  ~ startsListenerWithoutConfig (inl demoSas) demoDisabled.
Proof.
  intros H. destruct (H eq_refl eq_refl) as [_ Hrun].
  vm_compute in Hrun. discriminate Hrun.
Qed.

(** C2, amended.  Started without a config source, InitStreamAggr makes the
    stop channel and returns: the pointer stays empty, no listener is started
    and none is registered with the wait group, nothing is loaded.  A later
    MustStopStreamAggr still completes: it closes the channel, its wait
    returns at once, and it takes the empty pointer, which leaves nothing to
    stop. *)
Theorem init_without_config_starts_no_listener
    (w : World) (res : LoadResult) (sighups : list LoadResult) :
  streamAggrConfig w = ""%string ->
  sasGlobal w = None ->
  reloader w = NotStarted ->
  saCfgReloaderWG w = 0 ->
  exists w1 w2,
    InitStreamAggr res w = Returned tt w1
    /\ w1 = with_stopCh OpenChan w
    /\ sasGlobal w1 = None
    /\ reloader w1 = NotStarted
    /\ saCfgReloaderWG w1 = 0
    /\ trace w1 = trace w
    /\ MustStopStreamAggr sighups w1 = Returned tt w2
    /\ saCfgReloaderStopCh w2 = ClosedChan
    /\ reloader w2 = NotStarted
    /\ sasGlobal w2 = None
    /\ trace w2 = trace w ++ [PtrSwap None None]
    /\ engineCalls (trace w2) = engineCalls (trace w).
Proof.
  intros Hcfg Hnil Hrel Hwg. eexists _, _.
  unfold InitStreamAggr, bind, modify, gets, ret. simpl. rewrite Hcfg. simpl.
  split; [reflexivity |]. split; [reflexivity |]. simpl.
  do 4 (split; [done |]).
  unfold MustStopStreamAggr, saCfgReloaderWG_Wait, sasGlobal_Swap, Aggregators_MustStop,
    bind, modify, gets, ret. simpl. rewrite Hwg. simpl. rewrite Hnil. simpl.
  split; [reflexivity |]. simpl. do 4 (split; [done |]).
  unfold engineCalls. rewrite List.filter_app. simpl. by rewrite app_nil_r.
Qed.

Lemma init_without_config_starts_no_listener_witness :
  exists w1 w2,
    InitStreamAggr (inl demoSas) demoDisabled = Returned tt w1
    /\ w1 = with_stopCh OpenChan demoDisabled
    /\ sasGlobal w1 = None
    /\ reloader w1 = NotStarted
    /\ saCfgReloaderWG w1 = 0
    /\ trace w1 = trace demoDisabled
    /\ MustStopStreamAggr [inl demoSasOther] w1 = Returned tt w2
    /\ saCfgReloaderStopCh w2 = ClosedChan
    /\ reloader w2 = NotStarted
    /\ sasGlobal w2 = None
    /\ trace w2 = trace demoDisabled ++ [PtrSwap None None]
    /\ engineCalls (trace w2) = engineCalls (trace demoDisabled).
Proof.
  apply (init_without_config_starts_no_listener demoDisabled (inl demoSas)
           [inl demoSasOther]); reflexivity.
Defined.

(** For contrast, a start with a config source that parses does start the
    listener, and the shutdown then waits for it to return. *)
Example init_with_config_then_stop :
  (_ <- InitStreamAggr (inl demoSas) ;; MustStopStreamAggr [])
    (processStart "aggr.yaml" 0 1700000000)
  = Returned tt
      (MkWorld "aggr.yaml" 0 ClosedChan 0 Exited 0 0 1%float 1700000000 None 1700000000
         [LoadFromFile "aggr.yaml" 0; PtrStore (Some demoSas); SpawnReloader;
          PtrSwap (Some demoSas) None; AggrMustStop demoSas]).
Proof. reflexivity. Qed.

(** ** The feedback writer *)

Lemma with_trace_same (w : World) : with_trace (trace w) w = w.
Proof. by destruct w. Qed.

Lemma fold_addSeriesLabel (ls : list Label.t) (ctx : InsertCtx.t) :
  fold_left addSeriesLabel ls ctx
  = InsertCtx.Make (InsertCtx.Labels ctx ++ map rowLabel ls)
                   (InsertCtx.mrs ctx) (InsertCtx.skipStreamAggr ctx).
Proof.
  revert ctx. induction ls as [|l ls IH]; intros ctx; simpl.
  - rewrite app_nil_r. by destruct ctx.
  - rewrite IH. simpl. by rewrite <- app_assoc.
Qed.

Lemma firstValue_Some (ts : TimeSeries.t) (v : float) :
  firstValue ts = Some v ->
  exists s0 rest, TimeSeries.Samples ts = s0 :: rest /\ Sample.Value s0 = v.
Proof.
  unfold firstValue. destruct (TimeSeries.Samples ts) as [|s0 rest]; [done |].
  intros [= <-]. by exists s0, rest.
Qed.

(** Requests for rows are neither storage writes nor log lines. *)
Lemma filter_requests (evs : list Event) :
  Forall (fun e => isWriteDataPoint e = true) evs ->
  List.filter isAddRows evs = []
  /\ List.filter isErrorLog evs = []
  /\ List.filter isWriteDataPoint evs = evs.
Proof.
  induction 1 as [|e evs He _ (IH1 & IH2 & IH3)]; [done |].
  destruct e; try discriminate He. simpl. by rewrite IH1, IH2, IH3.
Qed.

Section FeedbackFacts.

Variable MarshalMetricNameRaw : list byte -> list Label.t -> list byte.
Variable writeDataPointErr :
  InsertCtx.t -> list Label.t -> Z -> float -> option string.
Variable addRowsErr : list MetricRow.t -> option string.

Abbreviation theLoop := (buildRows MarshalMetricNameRaw writeDataPointErr).
Abbreviation builtFrom := (builtFrom MarshalMetricNameRaw writeDataPointErr).
Abbreviation seriesRow := (seriesRow MarshalMetricNameRaw).

(** One turn of the loop, for a context marked to skip aggregation. *)
Lemma buildRows_cons t ctx ts rest w :
  InsertCtx.skipStreamAggr ctx = true ->
  theLoop t ctx (ts :: rest) w
  = match firstValue ts with
    | None => Crashed (GoPanic "index out of range [0] with length 0") w
    | Some v =>
        let labels := map rowLabel (TimeSeries.Labels ts) in
        let w1 := with_trace (trace w ++ [WriteDataPoint labels t v]) w in
        match writeDataPointErr (ctxAt (InsertCtx.mrs ctx) ts) labels t v with
        | Some _ =>
            Returned None
              (with_trace (trace w1 ++ [Log ERROR "cannot store aggregate series: %s"]) w1)
        | None =>
            theLoop t (InsertCtx.Make labels (InsertCtx.mrs ctx ++ [seriesRow t ts v]) true)
                      rest w1
        end
    end.
Proof.
  intros Hskip. simpl. rewrite fold_addSeriesLabel. simpl. rewrite Hskip.
  unfold firstValue, ctxAt.
  destruct (TimeSeries.Samples ts) as [|s0 ss]; [reflexivity |].
  unfold InsertCtx_WriteDataPoint, bind, emit, modify, ret. simpl.
  destruct (writeDataPointErr _ _ _ _); reflexivity.
Qed.

(** A prefix of series that all build is consumed with one request each. *)
Lemma buildRows_built t done pre rows :
  builtFrom t done pre rows ->
  forall ctx, InsertCtx.mrs ctx = done -> InsertCtx.skipStreamAggr ctx = true ->
  exists ctx',
    InsertCtx.mrs ctx' = rows /\ InsertCtx.skipStreamAggr ctx' = true
    /\ forall rest w,
         theLoop t ctx (pre ++ rest) w
         = theLoop t ctx' rest
             (with_trace (trace w ++ concat (map (requestOf t) pre)) w).
Proof.
  induction 1 as [done | done ts v tss rows Hv Hok _ IH]; intros ctx Hmrs Hskip.
  - exists ctx. repeat split; [done.. |]. intros rest w. simpl.
    by rewrite app_nil_r, with_trace_same.
  - destruct (IH (InsertCtx.Make (map rowLabel (TimeSeries.Labels ts))
                    (done ++ [seriesRow t ts v]) true) eq_refl eq_refl)
      as (ctx' & Hrows & Hskip' & Hrun).
    exists ctx'. repeat split; [done.. |]. intros rest w.
    rewrite <- app_comm_cons, buildRows_cons by done.
    rewrite Hv, Hmrs. simpl. rewrite Hok, Hrun. simpl.
    unfold requestOf at 2. rewrite Hv. simpl. by rewrite <- app_assoc.
Qed.

(** The requests of a prefix that builds: one per series. *)
Lemma requests_built t done pre rows :
  builtFrom t done pre rows ->
  Forall (fun e => isWriteDataPoint e = true) (concat (map (requestOf t) pre))
  /\ length (concat (map (requestOf t) pre)) = length pre.
Proof.
  induction 1 as [done | done ts v tss rows Hv Hok _ [IH1 IH2]]; [done |].
  simpl. unfold requestOf at 1 3. rewrite Hv. simpl. split; [by constructor | by rewrite IH2].
Qed.

(** The rows of a prefix that builds: the row of each series, in order. *)
Lemma rows_built t done pre rows :
  builtFrom t done pre rows ->
  exists vs,
    Forall2 (fun ts v => firstValue ts = Some v) pre vs
    /\ rows = done ++ zip_with (seriesRow t) pre vs.
Proof.
  induction 1 as [done | done ts v tss rows Hv Hok _ (vs & Hvs & ->)].
  - exists []. split; [constructor | by rewrite app_nil_r].
  - exists (v :: vs). split; [by constructor |]. simpl. by rewrite <- app_assoc.
Qed.

Lemma buildEvent_cons t ts tss e :
  buildEvent t tss e -> buildEvent t (ts :: tss) e.
Proof.
  intros [(ts' & v & Hin & Hv & ->) | ->]; [left | by right].
  exists ts', v. split; [apply elem_of_cons; by right | done].
Qed.

(** Whatever the outcome, the loop only asks for rows of the series it was
    given, stamped [t], and logs failed builds. *)
Lemma buildRows_events tss :
  forall t ctx w, InsertCtx.skipStreamAggr ctx = true ->
  exists evs,
    trace (worldOf (theLoop t ctx tss w)) = trace w ++ evs
    /\ Forall (buildEvent t tss) evs.
Proof.
  induction tss as [|ts tss IH]; intros t ctx w Hskip.
  - exists []. simpl. by rewrite app_nil_r.
  - rewrite buildRows_cons by done.
    destruct (firstValue ts) as [v|] eqn:Hv.
    2: { exists []. simpl. by rewrite app_nil_r. }
    simpl.
    assert (Hreq : buildEvent t (ts :: tss)
              (WriteDataPoint (map rowLabel (TimeSeries.Labels ts)) t v)).
    { left. exists ts, v. split; [apply elem_of_cons; by left | done]. }
    destruct (writeDataPointErr _ _ _ _) as [err|].
    + exists [WriteDataPoint (map rowLabel (TimeSeries.Labels ts)) t v;
              Log ERROR "cannot store aggregate series: %s"].
      simpl. split; [by rewrite <- app_assoc |].
      constructor; [exact Hreq |]. constructor; [by right | constructor].
    + destruct (IH t (InsertCtx.Make (map rowLabel (TimeSeries.Labels ts))
                        (InsertCtx.mrs ctx ++ [seriesRow t ts v]) true)
                  (with_trace (trace w ++ [WriteDataPoint
                     (map rowLabel (TimeSeries.Labels ts)) t v]) w) eq_refl)
        as (evs & Htr & Hevs).
      eexists (_ :: evs). rewrite Htr. simpl. split; [by rewrite <- app_assoc |].
      constructor; [done |].
      eapply Forall_impl; [exact Hevs | intros e; apply buildEvent_cons].
Qed.

(** When the loop runs to its end, every series was built. *)
Lemma buildRows_Some tss :
  forall t ctx w ctx' w', InsertCtx.skipStreamAggr ctx = true ->
  theLoop t ctx tss w = Returned (Some ctx') w' ->
  builtFrom t (InsertCtx.mrs ctx) tss (InsertCtx.mrs ctx')
  /\ InsertCtx.skipStreamAggr ctx' = true.
Proof.
  induction tss as [|ts tss IH]; intros t ctx w ctx' w' Hskip Hrun.
  - simpl in Hrun. injection Hrun as <- <-. split; [constructor | done].
  - rewrite buildRows_cons in Hrun by done.
    destruct (firstValue ts) as [v|] eqn:Hv; [| discriminate Hrun].
    simpl in Hrun.
    destruct (writeDataPointErr _ _ _ _) as [err|] eqn:Herr; [discriminate Hrun |].
    apply IH in Hrun as [Hbuilt Hskip']; [| done]. simpl in Hbuilt.
    split; [| done]. by econstructor.
Qed.

Abbreviation theBuild :=
  (buildAggregateRows MarshalMetricNameRaw writeDataPointErr).
Abbreviation theWriter :=
  (pushAggregateSeries MarshalMetricNameRaw writeDataPointErr addRowsErr).

Lemma buildAggregateRows_eq tss w :
  theBuild tss w
  = theLoop (flushTimestamp w) (InsertCtx.Make [] [] true) tss w.
Proof. reflexivity. Qed.

(** The two ways a call of the feedback writer can go: the loop ends and
    the batch is forwarded, or it does not and only the requests and log
    lines of the loop were issued. *)
Lemma pushAggregateSeries_cases tss w :
  exists evs,
    Forall (buildEvent (flushTimestamp w) tss) evs
    /\ ((exists ctx w1 w2,
           theBuild tss w = Returned (Some ctx) w1
           /\ InsertCtx.skipStreamAggr ctx = true
           /\ builtFrom (flushTimestamp w) [] tss (InsertCtx.mrs ctx)
           /\ theWriter tss w = Returned tt w2
           /\ trace w2
              = trace w ++ evs
                  ++ AddRows (InsertCtx.mrs ctx) :: flushLog addRowsErr (InsertCtx.mrs ctx))
        \/ (trace (worldOf (theWriter tss w)) = trace w ++ evs
            /\ forall ctx w1, theBuild tss w <> Returned (Some ctx) w1)).
Proof.
  destruct (buildRows_events tss (flushTimestamp w) (InsertCtx.Make [] [] true) w eq_refl)
    as (evs & Htr & Hevs).
  exists evs. split; [done |].
  unfold pushAggregateSeries, bind. rewrite buildAggregateRows_eq in *.
  destruct (theLoop _ _ tss w) as [[ctx|] w1 | c w1] eqn:Hrun; simpl in Htr.
  - left. apply buildRows_Some in Hrun as Hbuilt; [| done].
    destruct Hbuilt as [Hbuilt Hskip]. simpl in Hbuilt.
    unfold emit, modify, flushLog, ret.
    destruct (addRowsErr (InsertCtx.mrs ctx)) as [e|] eqn:Hflush; simpl.
    + eexists ctx, w1, _. repeat split; try done.
      simpl. rewrite Htr, Hflush. by rewrite <- !app_assoc.
    + eexists ctx, w1, _. repeat split; try done.
      simpl. rewrite Htr, Hflush. by rewrite <- !app_assoc.
  - right. simpl. split; [done | discriminate].
  - right. simpl. split; [done | discriminate].
Qed.

End FeedbackFacts.

Lemma buildEvent_not_AddRows t tss evs rows :
  Forall (buildEvent t tss) evs -> AddRows rows ∉ evs.
Proof.
  intros Hevs Hin. rewrite Forall_forall in Hevs.
  destruct (Hevs _ Hin) as [(ts & v & _ & _ & Heq) | Heq]; discriminate Heq.
Qed.

Lemma buildEvent_engineCalls t tss evs :
  Forall (buildEvent t tss) evs -> engineCalls evs = [].
Proof.
  induction 1 as [|e evs He _ IH]; [done |].
  unfold engineCalls in *. simpl.
  by destruct He as [(ts & v & _ & _ & ->) | ->].
Qed.

Lemma requestOf_Some t ts v :
  firstValue ts = Some v ->
  requestOf t ts = [WriteDataPoint (map rowLabel (TimeSeries.Labels ts)) t v].
Proof. intros Hv. unfold requestOf. by rewrite Hv. Qed.

Lemma flushTimestamp_in_range (w : World) :
  0 <= unixTimestamp w <= 9223372036854775 ->
  flushTimestamp w = unixTimestamp w * 1000.
Proof.
  intros Hrange. unfold flushTimestamp, wrapI64.
  rewrite (Z.mod_small (unixTimestamp w + 2 ^ 63)) by lia.
  rewrite Z.mod_small by lia. lia.
Qed.

(** The scenario of the specification, run on the model: of five aggregate
    outputs the third cannot be built; two rows are requested and built, the
    third request fails, one error is logged, nothing is written. *)
Example feedback_third_of_five_fails :
  pushAggregateSeries demoMarshal demoWriteErr demoAddRowsErr demoOutputs demoEnabled
  = Returned tt
      (with_trace
         [WriteDataPoint [Label.Make "" "cpu:1m_sum"; Label.Make "host" "a"]
                         1700000060000 1%float;
          WriteDataPoint [Label.Make "" "mem:1m_sum"; Label.Make "host" "a"]
                         1700000060000 2%float;
          WriteDataPoint [] 1700000060000 3%float;
          Log ERROR "cannot store aggregate series: %s"]
         demoEnabled).
Proof. reflexivity. Qed.

(** C7. If the rows of the series before series i are built and building
    the row of series i fails, the call returns having requested rows for
    the series up to i only, logged exactly one error and written nothing to
    storage.  And whenever a call does write to storage, every series of the
    call was built without error and the rows written are those rows. *)
Theorem failed_build_forwards_nothing
    (MarshalMetricNameRaw : list byte -> list Label.t -> list byte)
    (writeDataPointErr : InsertCtx.t -> list Label.t -> Z -> float -> option string)
    (addRowsErr : list MetricRow.t -> option string)
    (pre : list TimeSeries.t) (ts : TimeSeries.t) (post : list TimeSeries.t)
    (rows : list MetricRow.t) (w : World) :
  builtFrom MarshalMetricNameRaw writeDataPointErr (flushTimestamp w) [] pre rows ->
  buildFails writeDataPointErr (flushTimestamp w) rows ts ->
  pushAggregateSeries MarshalMetricNameRaw writeDataPointErr addRowsErr
    (pre ++ ts :: post) w
  = Returned tt
      (with_trace
         (trace w ++ concat (map (requestOf (flushTimestamp w)) (pre ++ [ts]))
                  ++ [Log ERROR "cannot store aggregate series: %s"]) w)
  /\ List.filter isAddRows
       (concat (map (requestOf (flushTimestamp w)) (pre ++ [ts]))
          ++ [Log ERROR "cannot store aggregate series: %s"]) = []
  /\ List.filter isErrorLog
       (concat (map (requestOf (flushTimestamp w)) (pre ++ [ts]))
          ++ [Log ERROR "cannot store aggregate series: %s"])
     = [Log ERROR "cannot store aggregate series: %s"]
  /\ length (List.filter isWriteDataPoint
       (concat (map (requestOf (flushTimestamp w)) (pre ++ [ts]))
          ++ [Log ERROR "cannot store aggregate series: %s"])) = S (length pre)
  /\ (forall tss' written,
        AddRows written
          ∈ newEvents w (pushAggregateSeries MarshalMetricNameRaw writeDataPointErr
                           addRowsErr tss' w) ->
        builtFrom MarshalMetricNameRaw writeDataPointErr (flushTimestamp w) [] tss' written).
Proof.
  intros Hpre (v & err & Hv & Herr).
  assert (Hreqs : Forall (fun e => isWriteDataPoint e = true)
                    (concat (map (requestOf (flushTimestamp w)) (pre ++ [ts])))
                  /\ length (concat (map (requestOf (flushTimestamp w)) (pre ++ [ts])))
                     = S (length pre)).
  { destruct (requests_built _ _ _ _ _ _ Hpre) as [Hall Hlen].
    rewrite map_app, concat_app, length_app, Hlen. simpl.
    rewrite (requestOf_Some _ _ _ Hv). simpl. split; [| lia].
    apply Forall_app. split; [done |]. by repeat constructor. }
  destruct Hreqs as [Hall Hlen].
  destruct (filter_requests _ Hall) as (HnoAdd & HnoLog & Hreq).
  split; [| split; [| split; [| split]]].
  - unfold pushAggregateSeries, bind. rewrite buildAggregateRows_eq.
    destruct (buildRows_built _ _ _ _ _ _ Hpre (InsertCtx.Make [] [] true) eq_refl eq_refl)
      as (ctx' & Hrows & Hskip & Hrun).
    rewrite Hrun, buildRows_cons by done.
    rewrite Hv, Hrows. simpl. rewrite Herr. unfold ret.
    rewrite map_app, concat_app. simpl. rewrite (requestOf_Some _ _ _ Hv). simpl.
    unfold with_trace. simpl. by rewrite <- !app_assoc.
  - by rewrite List.filter_app, HnoAdd.
  - by rewrite List.filter_app, HnoLog.
  - by rewrite List.filter_app, Hreq, length_app, Hlen.
  - intros tss' written Hin.
    destruct (pushAggregateSeries_cases MarshalMetricNameRaw writeDataPointErr
                addRowsErr tss' w) as (evs & Hevs & [Hdone | [Htr _]]).
    + destruct Hdone as (ctx & w1 & w2 & _ & _ & Hbuilt & Hcall & Htr).
      rewrite Hcall, (newEvents_Returned _ _ _ _ Htr) in Hin.
      apply elem_of_app in Hin as [Hin | Hin];
        [by destruct (buildEvent_not_AddRows _ _ _ _ Hevs Hin) |].
      apply elem_of_cons in Hin as [[= ->] | Hin]; [done |].
      unfold flushLog in Hin. destruct (addRowsErr _); [| by apply elem_of_nil in Hin].
      apply elem_of_cons in Hin as [Hin | Hin]; [discriminate Hin |].
      by apply elem_of_nil in Hin.
    + unfold newEvents in Hin. rewrite Htr, drop_app_length in Hin.
      by destruct (buildEvent_not_AddRows _ _ _ _ Hevs Hin).
Qed.

Lemma failed_build_forwards_nothing_witness :
  pushAggregateSeries demoMarshal demoWriteErr demoAddRowsErr
    (demoBuilt ++ demoRefused :: demoRest) demoEnabled
  = Returned tt
      (with_trace
         (trace demoEnabled
            ++ concat (map (requestOf (flushTimestamp demoEnabled))
                           (demoBuilt ++ [demoRefused]))
            ++ [Log ERROR "cannot store aggregate series: %s"]) demoEnabled)
  /\ List.filter isAddRows
       (concat (map (requestOf (flushTimestamp demoEnabled)) (demoBuilt ++ [demoRefused]))
          ++ [Log ERROR "cannot store aggregate series: %s"]) = []
  /\ List.filter isErrorLog
       (concat (map (requestOf (flushTimestamp demoEnabled)) (demoBuilt ++ [demoRefused]))
          ++ [Log ERROR "cannot store aggregate series: %s"])
     = [Log ERROR "cannot store aggregate series: %s"]
  /\ length (List.filter isWriteDataPoint
       (concat (map (requestOf (flushTimestamp demoEnabled)) (demoBuilt ++ [demoRefused]))
          ++ [Log ERROR "cannot store aggregate series: %s"])) = S (length demoBuilt)
  /\ (forall tss' written,
        AddRows written
          ∈ newEvents demoEnabled
              (pushAggregateSeries demoMarshal demoWriteErr demoAddRowsErr tss' demoEnabled) ->
        builtFrom demoMarshal demoWriteErr (flushTimestamp demoEnabled) [] tss' written).
Proof.
  apply (failed_build_forwards_nothing demoMarshal demoWriteErr demoAddRowsErr
           demoBuilt demoRefused demoRest
           [seriesRow demoMarshal (flushTimestamp demoEnabled)
              (aggrSeries "cpu:1m_sum" 1%float) 1%float;
            seriesRow demoMarshal (flushTimestamp demoEnabled)
              (aggrSeries "mem:1m_sum" 2%float) 2%float]
           demoEnabled).
  - eapply builtFrom_cons; [reflexivity | reflexivity |].
    eapply builtFrom_cons; [reflexivity | reflexivity |].
    apply builtFrom_nil.
  - exists 3%float, "missing labels"%string. split; reflexivity.
Defined.

(** What a call of the feedback writer adds to the trace: requests and log
    lines of the loop, followed, only if the loop ended, by the storage write
    of the rows of the insert context and the log line of its failure. *)
Lemma pushAggregateSeries_newEvents
    (MarshalMetricNameRaw : list byte -> list Label.t -> list byte)
    (writeDataPointErr : InsertCtx.t -> list Label.t -> Z -> float -> option string)
    (addRowsErr : list MetricRow.t -> option string)
    (tss : list TimeSeries.t) (w : World) :
  exists evs tail,
    Forall (buildEvent (flushTimestamp w) tss) evs
    /\ newEvents w (pushAggregateSeries MarshalMetricNameRaw writeDataPointErr
                      addRowsErr tss w) = evs ++ tail
    /\ (tail = []
        \/ exists ctx w1,
             buildAggregateRows MarshalMetricNameRaw writeDataPointErr tss w
             = Returned (Some ctx) w1
             /\ InsertCtx.skipStreamAggr ctx = true
             /\ builtFrom MarshalMetricNameRaw writeDataPointErr (flushTimestamp w) []
                  tss (InsertCtx.mrs ctx)
             /\ tail = AddRows (InsertCtx.mrs ctx)
                         :: flushLog addRowsErr (InsertCtx.mrs ctx)).
Proof.
  destruct (pushAggregateSeries_cases MarshalMetricNameRaw writeDataPointErr
              addRowsErr tss w) as (evs & Hevs & [Hdone | [Htr _]]).
  - destruct Hdone as (ctx & w1 & w2 & Hbuild & Hskip & Hbuilt & Hcall & Htr).
    exists evs, (AddRows (InsertCtx.mrs ctx) :: flushLog addRowsErr (InsertCtx.mrs ctx)).
    split; [done |]. split; [by rewrite Hcall, (newEvents_Returned _ _ _ _ Htr) |].
    right. by exists ctx, w1.
  - exists evs, []. split; [done |]. split; [| by left].
    unfold newEvents. by rewrite Htr, drop_app_length, app_nil_r.
Qed.



(** A call whose rows all build, run on the model: the two rows carry the
    flush time, not the 1000 of their samples, and the metric group under
    the empty label name. *)
Example feedback_two_rows_written :
  pushAggregateSeries demoMarshal demoWriteErr demoAddRowsErr demoBuilt demoEnabled
  = Returned tt
      (with_trace
         [WriteDataPoint [Label.Make "" "cpu:1m_sum"; Label.Make "host" "a"]
                         1700000060000 1%float;
          WriteDataPoint [Label.Make "" "mem:1m_sum"; Label.Make "host" "a"]
                         1700000060000 2%float;
          AddRows
            [MetricRow.Make
               (demoMarshal [] [Label.Make "" "cpu:1m_sum"; Label.Make "host" "a"])
               1700000060000 1%float;
             MetricRow.Make
               (demoMarshal [] [Label.Make "" "mem:1m_sum"; Label.Make "host" "a"])
               1700000060000 2%float]]
         demoEnabled).
Proof. reflexivity. Qed.

(** C9. A call of the feedback writer never pushes into a rule set: it
    makes no call that reaches a rule-set instance.  Whatever it writes to
    storage are the rows of its own insert context, which was marked to skip
    stream aggregation before the first row was built and still is when the
    write is issued. *)
Theorem feedback_writes_skip_aggregation
    (MarshalMetricNameRaw : list byte -> list Label.t -> list byte)
    (writeDataPointErr : InsertCtx.t -> list Label.t -> Z -> float -> option string)
    (addRowsErr : list MetricRow.t -> option string)
    (tss : list TimeSeries.t) (w : World) :
  engineCalls (newEvents w (pushAggregateSeries MarshalMetricNameRaw writeDataPointErr
                              addRowsErr tss w)) = []
  /\ (forall written,
        AddRows written
          ∈ newEvents w (pushAggregateSeries MarshalMetricNameRaw writeDataPointErr
                           addRowsErr tss w) ->
        exists ctx w1,
          buildAggregateRows MarshalMetricNameRaw writeDataPointErr tss w
          = Returned (Some ctx) w1
          /\ InsertCtx.skipStreamAggr ctx = true
          /\ written = InsertCtx.mrs ctx).
Proof.
  destruct (pushAggregateSeries_newEvents MarshalMetricNameRaw writeDataPointErr
              addRowsErr tss w) as (evs & tail & Hevs & Hnew & Htail).
  rewrite Hnew. split.
  - unfold engineCalls. rewrite List.filter_app.
    fold (engineCalls evs). rewrite (buildEvent_engineCalls _ _ _ Hevs). simpl.
    destruct Htail as [-> | (ctx & w1 & _ & _ & _ & ->)]; [done |].
    simpl. unfold flushLog. by destruct (addRowsErr _).
  - intros written Hin.
    apply elem_of_app in Hin as [Hin | Hin];
      [by destruct (buildEvent_not_AddRows _ _ _ _ Hevs Hin) |].
    destruct Htail as [-> | (ctx & w1 & Hbuild & Hskip & _ & ->)];
      [by apply elem_of_nil in Hin |].
    apply elem_of_cons in Hin as [[= ->] | Hin]; [by exists ctx, w1 |].
    unfold flushLog in Hin. destruct (addRowsErr _); [| by apply elem_of_nil in Hin].
    apply elem_of_cons in Hin as [Hin | Hin]; [discriminate Hin |].
    by apply elem_of_nil in Hin.
Qed.

(** ** The first sample *)

Lemma firstValue_firstSampleOnly (ts : TimeSeries.t) :
  firstValue (firstSampleOnly ts) = firstValue ts.
Proof. unfold firstValue, firstSampleOnly. simpl. by destruct (TimeSeries.Samples ts). Qed.

Section FirstSample.

Variable MarshalMetricNameRaw : list byte -> list Label.t -> list byte.
Variable writeDataPointErr :
  InsertCtx.t -> list Label.t -> Z -> float -> option string.
Variable addRowsErr : list MetricRow.t -> option string.

Abbreviation loopOn := (buildRows MarshalMetricNameRaw writeDataPointErr).

Lemma buildRows_firstSampleOnly tss :
  forall t ctx w, InsertCtx.skipStreamAggr ctx = true ->
  loopOn t ctx (map firstSampleOnly tss) w = loopOn t ctx tss w.
Proof.
  induction tss as [|ts tss IH]; intros t ctx w Hskip; [reflexivity |].
  rewrite map_cons, !buildRows_cons by done.
  rewrite firstValue_firstSampleOnly.
  destruct (firstValue ts) as [v|]; [| reflexivity]. simpl.
  unfold ctxAt, seriesRow. simpl.
  destruct (writeDataPointErr _ _ _ _); [reflexivity |]. by apply IH.
Qed.

Lemma buildRows_returns tss :
  Forall (fun ts => TimeSeries.Samples ts <> []) tss ->
  forall t ctx w, InsertCtx.skipStreamAggr ctx = true ->
  exists r w', loopOn t ctx tss w = Returned r w'.
Proof.
  induction 1 as [|ts tss Hts _ IH]; intros t ctx w Hskip.
  - by exists (Some ctx), w.
  - rewrite buildRows_cons by done. unfold firstValue.
    destruct (TimeSeries.Samples ts) as [|s0 ss]; [done |]. simpl.
    destruct (writeDataPointErr _ _ _ _); [by eexists _, _ |]. by apply IH.
Qed.

End FirstSample.

(** A series without samples, reached after one that builds, run on the
    model: the access to its first sample is out of range. *)
Example feedback_no_sample_panics :
  pushAggregateSeries demoMarshal demoWriteErr demoAddRowsErr demoNoSample demoEnabled
  = Crashed (GoPanic "index out of range [0] with length 0")
      (with_trace
         [WriteDataPoint [Label.Make "" "cpu:1m_sum"; Label.Make "host" "a"]
                         1700000060000 1%float]
         demoEnabled).
Proof. reflexivity. Qed.

(** C10. The feedback writer reads the first sample of each series and
    nothing else of its samples: cutting every series down to its first
    sample changes nothing.  If every series has a sample the call returns.
    If a series without samples is reached (the rows before it were built),
    the access to its first sample is out of range and the call panics. *)
Theorem feedback_reads_first_sample_only
    (MarshalMetricNameRaw : list byte -> list Label.t -> list byte)
    (writeDataPointErr : InsertCtx.t -> list Label.t -> Z -> float -> option string)
    (addRowsErr : list MetricRow.t -> option string) :
  (forall tss w,
      pushAggregateSeries MarshalMetricNameRaw writeDataPointErr addRowsErr
        (map firstSampleOnly tss) w
      = pushAggregateSeries MarshalMetricNameRaw writeDataPointErr addRowsErr tss w)
  /\ (forall tss w,
        Forall (fun ts => TimeSeries.Samples ts <> []) tss ->
        exists w',
          pushAggregateSeries MarshalMetricNameRaw writeDataPointErr addRowsErr tss w
          = Returned tt w')
  /\ (forall pre ts post rows w,
        builtFrom MarshalMetricNameRaw writeDataPointErr (flushTimestamp w) [] pre rows ->
        TimeSeries.Samples ts = [] ->
        pushAggregateSeries MarshalMetricNameRaw writeDataPointErr addRowsErr
          (pre ++ ts :: post) w
        = Crashed (GoPanic "index out of range [0] with length 0")
            (with_trace
               (trace w ++ concat (map (requestOf (flushTimestamp w)) pre)) w)).
Proof.
  split; [| split].
  - intros tss w. unfold pushAggregateSeries, bind.
    rewrite !buildAggregateRows_eq. by rewrite buildRows_firstSampleOnly.
  - intros tss w Hall. unfold pushAggregateSeries, bind.
    rewrite buildAggregateRows_eq.
    destruct (buildRows_returns MarshalMetricNameRaw writeDataPointErr tss Hall
                (flushTimestamp w) (InsertCtx.Make [] [] true) w eq_refl)
      as (r & w' & ->).
    destruct r as [ctx|]; [| by eexists].
    unfold emit, modify, ret. destruct (addRowsErr _); by eexists.
  - intros pre ts post rows w Hpre Hnone.
    unfold pushAggregateSeries, bind. rewrite buildAggregateRows_eq.
    destruct (buildRows_built _ _ _ _ _ _ Hpre (InsertCtx.Make [] [] true) eq_refl eq_refl)
      as (ctx' & Hrows & Hskip & Hrun).
    rewrite Hrun, buildRows_cons by done.
    unfold firstValue. by rewrite Hnone.
Qed.

(** ** Pushing: failures, and what a push depends on *)

Lemma samePackageState_with_trace (w : World) (t : list Event) :
  samePackageState w (with_trace t w).
Proof. unfold samePackageState. by destruct w. Qed.

Lemma samePackageState_refl (w : World) : samePackageState w w.
Proof. unfold samePackageState. by destruct w. Qed.

Section PushOutcomes.

Variable UnmarshalRaw : list byte -> MetricName.t + string.
Variable staleBytes : list byte -> nat -> list byte.
Variable ruleMatches : Aggregators.t -> TimeSeries.t -> bool.

(** Either every row of a batch decodes, or there is a first one that does
    not. *)
Lemma decode_dichotomy (mrs : list MetricRow.t) :
  (exists mns, Forall2 (decodesTo UnmarshalRaw) mrs mns)
  \/ (exists pre bad post mns err,
        mrs = pre ++ bad :: post
        /\ Forall2 (decodesTo UnmarshalRaw) pre mns
        /\ UnmarshalRaw (MetricRow.MetricNameRaw bad) = inr err).
Proof.
  induction mrs as [|mr mrs IH]; [left; exists []; constructor |].
  destruct (UnmarshalRaw (MetricRow.MetricNameRaw mr)) as [mn|err] eqn:Hmr.
  - destruct IH as [(mns & Hall) | (pre & bad & post & mns & err & -> & Hpre & Hbad)].
    + left. exists (mn :: mns). by constructor.
    + right. exists (mr :: pre), bad, post, (mn :: mns), err.
      split; [done |]. split; [by constructor | done].
  - right. exists [], mr, mrs, [], err. split; [done |]. split; [constructor | done].
Qed.

Lemma forRange_pushRow_fails pre mns bad post err :
  Forall2 (decodesTo UnmarshalRaw) pre mns ->
  UnmarshalRaw (MetricRow.MetricNameRaw bad) = inr err ->
  forall loc w,
    forRange (pushRow UnmarshalRaw) loc (pre ++ bad :: post) w
    = Crashed decodePanic
        (with_trace
           (trace w ++ [Log PANIC "BUG: cannot unmarshal recently marshaled MetricName: %s"])
           w).
Proof.
  intros Hpre Hbad. induction Hpre as [|mr mn pre mns Hd _ IH]; intros loc w; simpl.
  - unfold bind, pushRow. rewrite Hbad. reflexivity.
  - unfold bind. rewrite (pushRow_decoded _ _ _ _ _ Hd). apply IH.
Qed.

Lemma push_fails ctx pre mns bad post err matchIdxs w :
  Forall2 (decodesTo UnmarshalRaw) pre mns ->
  UnmarshalRaw (MetricRow.MetricNameRaw bad) = inr err ->
  push UnmarshalRaw staleBytes ruleMatches ctx (pre ++ bad :: post) matchIdxs w
  = Crashed decodePanic
      (with_trace
         (trace w ++ [Log PANIC "BUG: cannot unmarshal recently marshaled MetricName: %s"])
         w).
Proof.
  intros Hpre Hbad. unfold push, bind.
  by rewrite (forRange_pushRow_fails _ _ _ _ _ Hpre Hbad).
Qed.

(** A push of rows that decode, with the context it returns made explicit. *)
Lemma push_decoded_reset ctx mrs mns matchIdxs w :
  Forall2 (decodesTo UnmarshalRaw) mrs mns ->
  push UnmarshalRaw staleBytes ruleMatches ctx mrs matchIdxs w
  = bind (Aggregators_Push ruleMatches (sasGlobal w) (zip_with rowSeries mns mrs)
            (replicate (length mrs) x00))
         (fun m => ret (m, emptyCtx)) w.
Proof.
  intros Hdec.
  destruct (push_decoded UnmarshalRaw staleBytes ruleMatches ctx mrs mns matchIdxs w Hdec)
    as (ctx' & ->).
  reflexivity.
Qed.

End PushOutcomes.

(** X1. The outcome of a push depends on the rows, the decoder, the rule
    set and the world only: what the context held on entry, the bitmap
    buffer passed in and the stale bytes of a reused buffer make no
    difference, not to the bitmap returned, not to the context returned, not
    to the calls made. *)
Theorem push_ignores_context_and_buffer
    (UnmarshalRaw : list byte -> MetricName.t + string)
    (staleBytes staleBytes' : list byte -> nat -> list byte)
    (ruleMatches : Aggregators.t -> TimeSeries.t -> bool)
    (ctx ctx' : streamAggrCtx) (mrs : list MetricRow.t)
    (matchIdxs matchIdxs' : list byte) (w : World) :
  push UnmarshalRaw staleBytes ruleMatches ctx mrs matchIdxs w
  = push UnmarshalRaw staleBytes' ruleMatches ctx' mrs matchIdxs' w.
Proof.
  destruct (decode_dichotomy UnmarshalRaw mrs)
    as [(mns & Hall) | (pre & bad & post & mns & err & -> & Hpre & Hbad)].
  - by rewrite !(push_decoded_reset _ _ _ _ _ mns).
  - by rewrite !(push_fails _ _ _ _ _ mns bad post err).
Qed.


(** X3. If the rows before a row decode and that row does not, the push
    panics at it: it logs the panic, hands nothing to the rule set, and the
    rows behind it are not looked at. *)
Theorem push_undecodable_row_panics
    (UnmarshalRaw : list byte -> MetricName.t + string)
    (staleBytes : list byte -> nat -> list byte)
    (ruleMatches : Aggregators.t -> TimeSeries.t -> bool)
    (ctx : streamAggrCtx) (pre : list MetricRow.t) (mns : list MetricName.t)
    (bad : MetricRow.t) (post post' : list MetricRow.t) (err : string)
    (matchIdxs : list byte) (w : World) :
  Forall2 (decodesTo UnmarshalRaw) pre mns ->
  UnmarshalRaw (MetricRow.MetricNameRaw bad) = inr err ->
  push UnmarshalRaw staleBytes ruleMatches ctx (pre ++ bad :: post) matchIdxs w
  = Crashed decodePanic
      (with_trace
         (trace w ++ [Log PANIC "BUG: cannot unmarshal recently marshaled MetricName: %s"])
         w)
  /\ push UnmarshalRaw staleBytes ruleMatches ctx (pre ++ bad :: post') matchIdxs w
     = push UnmarshalRaw staleBytes ruleMatches ctx (pre ++ bad :: post) matchIdxs w
  /\ engineCalls
       (newEvents w (push UnmarshalRaw staleBytes ruleMatches ctx (pre ++ bad :: post)
                          matchIdxs w)) = [].
Proof.
  intros Hpre Hbad.
  rewrite !(push_fails _ _ _ _ _ mns bad _ err) by done.
  split; [reflexivity |]. split; [reflexivity |].
  unfold newEvents. simpl. by rewrite drop_app_length.
Qed.

Lemma push_undecodable_row_panics_witness :
  push demoUnmarshalRaw demoStale demoMatches emptyCtx
    ([MetricRow.Make [x01] 1000 1%float] ++ MetricRow.Make [x09] 1500 7%float
       :: [MetricRow.Make [x02] 2000 2%float]) [] demoEnabled
  = Crashed decodePanic
      (with_trace
         (trace demoEnabled
            ++ [Log PANIC "BUG: cannot unmarshal recently marshaled MetricName: %s"])
         demoEnabled)
  /\ push demoUnmarshalRaw demoStale demoMatches emptyCtx
       ([MetricRow.Make [x01] 1000 1%float] ++ MetricRow.Make [x09] 1500 7%float :: [])
       [] demoEnabled
     = push demoUnmarshalRaw demoStale demoMatches emptyCtx
         ([MetricRow.Make [x01] 1000 1%float] ++ MetricRow.Make [x09] 1500 7%float
            :: [MetricRow.Make [x02] 2000 2%float]) [] demoEnabled
  /\ engineCalls
       (newEvents demoEnabled
          (push demoUnmarshalRaw demoStale demoMatches emptyCtx
             ([MetricRow.Make [x01] 1000 1%float] ++ MetricRow.Make [x09] 1500 7%float
                :: [MetricRow.Make [x02] 2000 2%float]) [] demoEnabled)) = [].
Proof.
  apply (push_undecodable_row_panics demoUnmarshalRaw demoStale demoMatches emptyCtx
           [MetricRow.Make [x01] 1000 1%float] [cpuHost "a"]
           (MetricRow.Make [x09] 1500 7%float) [MetricRow.Make [x02] 2000 2%float] []
           "cannot unmarshal MetricName" [] demoEnabled).
  - repeat constructor.
  - reflexivity.
Defined.

(** The batch with an undecodable second row, run on the model. *)
Example push_bad_row :
  push demoUnmarshalRaw demoStale demoMatches emptyCtx demoBadRows [] demoEnabled
  = Crashed decodePanic
      (with_trace [Log PANIC "BUG: cannot unmarshal recently marshaled MetricName: %s"]
                  demoEnabled).
Proof. reflexivity. Qed.

(** X4. Whatever its outcome, a push leaves the package state alone: the
    active pointer, the metrics, the channel and the wait group are as
    before; it adds at most one event to the trace, and never a write of the
    pointer. *)
Theorem push_keeps_package_state
    (UnmarshalRaw : list byte -> MetricName.t + string)
    (staleBytes : list byte -> nat -> list byte)
    (ruleMatches : Aggregators.t -> TimeSeries.t -> bool)
    (ctx : streamAggrCtx) (mrs : list MetricRow.t) (matchIdxs : list byte) (w : World) :
  samePackageState w
    (worldOf (push UnmarshalRaw staleBytes ruleMatches ctx mrs matchIdxs w))
  /\ (length (newEvents w (push UnmarshalRaw staleBytes ruleMatches ctx mrs matchIdxs w))
      <= 1)%nat
  /\ List.filter writesPointer
       (newEvents w (push UnmarshalRaw staleBytes ruleMatches ctx mrs matchIdxs w)) = [].
Proof.
  destruct (decode_dichotomy UnmarshalRaw mrs)
    as [(mns & Hall) | (pre & bad & post & mns & err & -> & Hpre & Hbad)].
  - rewrite (push_decoded_reset _ _ _ _ _ mns) by done.
    unfold bind, Aggregators_Push, newEvents. destruct (sasGlobal w) as [a|]; simpl.
    + rewrite drop_app_length. simpl.
      split; [apply samePackageState_with_trace | split; [lia | done]].
    + rewrite drop_all. simpl.
      split; [apply samePackageState_refl | split; [lia | done]].
  - rewrite (push_fails _ _ _ _ _ mns bad post err) by done.
    unfold newEvents. simpl. rewrite drop_app_length. simpl.
    split; [apply samePackageState_with_trace | split; [lia | done]].
Qed.

(** ** Reloads in sequence, and shutdown *)

Lemma stoppedInstances_app (t1 t2 : list Event) :
  stoppedInstances (t1 ++ t2) = stoppedInstances t1 ++ stoppedInstances t2.
Proof. apply omap_app. Qed.

Lemma loadedInstances_cons (res : LoadResult) (ress : list LoadResult) :
  loadedInstances (res :: ress) = loadedInstances [res] ++ loadedInstances ress.
Proof. by destruct res. Qed.

Lemma loadedInstances_app (r1 r2 : list LoadResult) :
  loadedInstances (r1 ++ r2) = loadedInstances r1 ++ loadedInstances r2.
Proof. apply omap_app. Qed.

(** One reload, whatever it loads and whatever the pointer holds: it
    returns, keeps the lifecycle plumbing, counts itself, and every instance
    is accounted for. *)
Lemma reload_effect (res : LoadResult) (w : World) :
  exists w',
    reloadStreamAggrConfig res w = Returned tt w'
    /\ sameLifecycle w w'
    /\ saCfgReloads w' = wrapU64 (saCfgReloads w + 1)
    /\ saCfgReloadErr w'
       = match res with
         | inl _ => saCfgReloadErr w
         | inr _ => wrapU64 (saCfgReloadErr w + 1)
         end
    /\ saCfgSuccess w' = gaugeAfter res
    /\ stoppedInstances (trace w') ++ activeInstance w'
       ≡ₚ stoppedInstances (trace w) ++ activeInstance w ++ loadedInstances [res].
Proof.
  unfold reloadStreamAggrConfig, streamaggr_LoadFromFile, sasGlobal_Load, sasGlobal_Swap,
    bind, emit, modify, gets, ret, sameLifecycle, activeInstance.
  destruct res as [sasNew | err]; simpl.
  - destruct (Aggregators.Equal (Some sasNew) (sasGlobal w)); simpl.
    + eexists. split; [reflexivity |]. simpl. split; [by repeat split |].
      do 3 (split; [reflexivity |]).
      rewrite <- !app_assoc, !stoppedInstances_app. simpl.
      rewrite <- !app_assoc. apply Permutation_app_head, Permutation_app_comm.
    + destruct (sasGlobal w) as [old|] eqn:Hold; simpl.
      * eexists. split; [reflexivity |]. simpl. split; [by repeat split |].
      do 3 (split; [reflexivity |]).
        rewrite <- !app_assoc, !stoppedInstances_app. simpl.
        by rewrite <- !app_assoc.
      * eexists. split; [reflexivity |]. simpl. split; [by repeat split |].
      do 3 (split; [reflexivity |]).
        rewrite <- !app_assoc, !stoppedInstances_app. simpl.
        by rewrite app_nil_r.
  - eexists. split; [reflexivity |]. simpl. split; [by repeat split |].
      do 3 (split; [reflexivity |]).
    rewrite <- !app_assoc, !stoppedInstances_app. simpl.
    by rewrite !app_nil_r.
Qed.

Lemma wrapU64_isU64 (z : Z) : isU64 (wrapU64 z).
Proof. unfold isU64, wrapU64. apply Z.mod_pos_bound. lia. Qed.

Lemma wrapU64_small (z : Z) : isU64 z -> wrapU64 z = z.
Proof. unfold isU64, wrapU64. intros H. by apply Z.mod_small. Qed.

Lemma wrapU64_add_l (a b : Z) : wrapU64 (wrapU64 a + b) = wrapU64 (a + b).
Proof. unfold wrapU64. by rewrite Zplus_mod_idemp_l. Qed.

(** The reloader with nothing left to serve: it returns if the stop channel
    is closed and stays blocked otherwise; either way metrics, pointer and
    trace are as before. *)
Lemma reloaderRun_nil (w : World) :
  reloaderRun [] w
  = Returned tt
      (match saCfgReloaderStopCh w with
       | ClosedChan => with_reloader Exited (with_WG (saCfgReloaderWG w - 1) w)
       | _ => w
       end).
Proof.
  unfold reloaderRun, bind, gets, modify, ret.
  by destruct (saCfgReloaderStopCh w).
Qed.

Lemma reloaderRun_cons (res : LoadResult) (ress : list LoadResult) (w w1 : World) :
  reloadStreamAggrConfig res w = Returned tt w1 ->
  reloaderRun (res :: ress) w = reloaderRun ress w1.
Proof. intros H. simpl. unfold bind. by rewrite H. Qed.

(** A run of the reloader over a series of loads: it returns, leaves flags,
    channel and clock alone, ends blocked or returned according to the stop
    channel, and accounts for every instance. *)
Lemma reloaderRun_effect (ress : list LoadResult) :
  forall w,
  exists w',
    reloaderRun ress w = Returned tt w'
    /\ streamAggrConfig w' = streamAggrConfig w
    /\ streamAggrDedupInterval w' = streamAggrDedupInterval w
    /\ saCfgReloaderStopCh w' = saCfgReloaderStopCh w
    /\ unixTimestamp w' = unixTimestamp w
    /\ (saCfgReloaderStopCh w = ClosedChan ->
        reloader w' = Exited /\ saCfgReloaderWG w' = saCfgReloaderWG w - 1)
    /\ (saCfgReloaderStopCh w <> ClosedChan ->
        reloader w' = reloader w /\ saCfgReloaderWG w' = saCfgReloaderWG w)
    /\ stoppedInstances (trace w') ++ activeInstance w'
       ≡ₚ stoppedInstances (trace w) ++ activeInstance w ++ loadedInstances ress.
Proof.
  induction ress as [|res ress IH]; intros w.
  - eexists. split; [apply reloaderRun_nil |].
    unfold activeInstance.
    destruct (saCfgReloaderStopCh w) eqn:Hch; simpl; rewrite ?Hch;
      repeat (split; [done |]); by rewrite !app_nil_r.
  - destruct (reload_effect res w)
      as (w1 & Hrun & (Hc & Hd & Hch & Hwg & Hrel & Hclk) & _ & _ & _ & Hacc).
    destruct (IH w1) as (w' & Hrun' & Hc' & Hd' & Hch' & Hclk' & Hclosed & Hopen & Hacc').
    exists w'. rewrite (reloaderRun_cons _ _ _ _ Hrun).
    split; [done |]. split; [congruence |]. split; [congruence |].
    split; [congruence |]. split; [congruence |].
    split; [intros H; rewrite <- Hwg; apply Hclosed; congruence |].
    split; [intros H; rewrite <- Hwg, <- Hrel; apply Hopen; congruence |].
    rewrite Hacc', loadedInstances_cons.
    rewrite (app_assoc (stoppedInstances (trace w1))), Hacc.
    by rewrite <- !app_assoc.
Qed.

Lemma reloaderRun_counters (ress : list LoadResult) :
  forall w,
    isU64 (saCfgReloads w) -> isU64 (saCfgReloadErr w) ->
    saCfgReloads (worldOf (reloaderRun ress w))
    = wrapU64 (saCfgReloads w + Z.of_nat (length ress))
    /\ saCfgReloadErr (worldOf (reloaderRun ress w))
       = wrapU64 (saCfgReloadErr w + Z.of_nat (failedLoads ress)).
Proof.
  induction ress as [|res ress IH]; intros w Hre Her.
  - rewrite reloaderRun_nil. simpl. rewrite !Z.add_0_r, !wrapU64_small by done.
    by destruct (saCfgReloaderStopCh w).
  - destruct (reload_effect res w) as (w1 & Hrun & _ & Hre1 & Her1 & _).
    rewrite (reloaderRun_cons _ _ _ _ Hrun).
    destruct (IH w1) as [IHre IHer].
    { rewrite Hre1. apply wrapU64_isU64. }
    { rewrite Her1. destruct res; [done | apply wrapU64_isU64]. }
    rewrite IHre, IHer, Hre1, Her1. split.
    + rewrite wrapU64_add_l. f_equal. simpl length. lia.
    + destruct res as [a|e]; unfold failedLoads; simpl.
      * reflexivity.
      * rewrite wrapU64_add_l. f_equal. lia.
Qed.

(** The gauge and the success timestamp after a run tell of the last
    reload served. *)
Lemma reloaderRun_last (ress : list LoadResult) :
  forall res w,
    saCfgSuccess (worldOf (reloaderRun (ress ++ [res]) w)) = gaugeAfter res
    /\ (forall a, res = inl a ->
          saCfgTimestamp (worldOf (reloaderRun (ress ++ [res]) w)) = unixTimestamp w).
Proof.
  induction ress as [|r ress IH]; intros res w.
  - simpl app.
    assert (Hts : forall a, res = inl a ->
              exists w1, reloadStreamAggrConfig res w = Returned tt w1
                         /\ saCfgSuccess w1 = gaugeAfter res
                         /\ saCfgTimestamp w1 = unixTimestamp w).
    { intros a ->.
      unfold reloadStreamAggrConfig, streamaggr_LoadFromFile, sasGlobal_Load,
        sasGlobal_Swap, bind, emit, modify, gets, ret. simpl.
      destruct (Aggregators.Equal (Some a) (sasGlobal w)); simpl;
        [by eexists | destruct (sasGlobal w); by eexists]. }
    destruct (reload_effect res w) as (w1 & Hrun & _ & _ & _ & Hg & _).
    rewrite (reloaderRun_cons _ _ _ _ Hrun), reloaderRun_nil. simpl. split.
    + rewrite <- Hg. by destruct (saCfgReloaderStopCh w1).
    + intros a Ha. destruct (Hts a Ha) as (w2 & Hrun2 & _ & Hts2).
      rewrite Hrun in Hrun2. injection Hrun2 as <-.
      rewrite <- Hts2. by destruct (saCfgReloaderStopCh w1).
  - destruct (reload_effect r w) as (w1 & Hrun & (_ & _ & _ & _ & _ & Hclk) & _).
    rewrite <- app_comm_cons, (reloaderRun_cons _ _ _ _ Hrun).
    destruct (IH res w1) as [IHg IHts]. split; [done |].
    intros a Ha. rewrite (IHts a Ha). done.
Qed.

(** Shutdown with the reloader waiting: it returns once the reloader has,
    with the channel closed, the pointer empty, and every instance that was
    active or loaded on the way stopped. *)
Lemma MustStop_effect (pending : list LoadResult) (w : World) :
  saCfgReloaderStopCh w = OpenChan ->
  saCfgReloaderWG w = 1 ->
  reloader w = Running ->
  exists w',
    MustStopStreamAggr pending w = Returned tt w'
    /\ saCfgReloaderStopCh w' = ClosedChan
    /\ reloader w' = Exited
    /\ saCfgReloaderWG w' = 0
    /\ sasGlobal w' = None
    /\ stoppedInstances (trace w')
       ≡ₚ stoppedInstances (trace w) ++ activeInstance w ++ loadedInstances pending.
Proof.
  intros Hch Hwg Hrel.
  destruct (reloaderRun_effect pending (with_stopCh ClosedChan w))
    as (w1 & Hrun & _ & _ & Hch1 & _ & Hclosed & _ & Hacc).
  destruct (Hclosed eq_refl) as [Hrel1 Hwg1]. simpl in Hwg1, Hch1, Hacc.
  unfold MustStopStreamAggr, saCfgReloaderWG_Wait, sasGlobal_Swap, bind, gets, modify, ret.
  rewrite Hch. simpl. rewrite Hwg. simpl. rewrite Hrel.
  rewrite Hrun. rewrite Hwg1, Hwg. simpl.
  assert (Hzero : saCfgReloaderWG w1 = 0) by lia.
  unfold activeInstance in *. simpl in Hacc.
  destruct (sasGlobal w1) as [a|] eqn:Hptr; simpl.
  - eexists. split; [reflexivity |]. simpl. do 4 (split; [done |]).
    rewrite <- app_assoc, stoppedInstances_app. simpl. exact Hacc.
  - eexists. split; [reflexivity |]. simpl. do 4 (split; [done |]).
    rewrite stoppedInstances_app. simpl. by rewrite app_nil_r in Hacc |- *.
Qed.

(** A start with a config source that parses. *)
Lemma Init_loaded (sas : Aggregators.t) (w : World) :
  streamAggrConfig w <> ""%string ->
  InitStreamAggr (inl sas) w
  = Returned tt
      (MkWorld (streamAggrConfig w) (streamAggrDedupInterval w) OpenChan
         (saCfgReloaderWG w + 1) Running (saCfgReloads w) (saCfgReloadErr w) 1%float
         (unixTimestamp w) (Some sas) (unixTimestamp w)
         (trace w ++ [LoadFromFile (streamAggrConfig w) (streamAggrDedupInterval w);
                      PtrStore (Some sas); SpawnReloader])).
Proof.
  intros Hcfg. apply String.eqb_neq in Hcfg.
  unfold InitStreamAggr, streamaggr_LoadFromFile, sasGlobal_Store, bind, emit, modify,
    gets, ret. simpl. rewrite Hcfg. simpl.
  unfold with_trace, with_reloader. simpl. by rewrite <- !app_assoc.
Qed.

Lemma reloaderRun_pointer_some (ress : list LoadResult) :
  forall w, is_Some (sasGlobal w) ->
            is_Some (sasGlobal (worldOf (reloaderRun ress w))).
Proof.
  induction ress as [|res ress IH]; intros w Hsome.
  - rewrite reloaderRun_nil. simpl. by destruct (saCfgReloaderStopCh w).
  - assert (Hstep : exists w1, reloadStreamAggrConfig res w = Returned tt w1
                               /\ is_Some (sasGlobal w1)).
    { unfold reloadStreamAggrConfig, streamaggr_LoadFromFile, sasGlobal_Load,
        sasGlobal_Swap, bind, emit, modify, gets, ret.
      destruct res as [a|e]; simpl; [| by eexists].
      destruct (Aggregators.Equal (Some a) (sasGlobal w)); simpl; [by eexists |].
      destruct (sasGlobal w); by eexists. }
    destruct Hstep as (w1 & Hrun & Hsome1).
    rewrite (reloaderRun_cons _ _ _ _ Hrun). by apply IH.
Qed.

Lemma MustStop_returned_closed (sighups : list LoadResult) (w w1 : World) :
  MustStopStreamAggr sighups w = Returned tt w1 ->
  saCfgReloaderStopCh w1 = ClosedChan /\ sasGlobal w1 = None.
Proof.
  unfold MustStopStreamAggr, saCfgReloaderWG_Wait, sasGlobal_Swap, bind, gets, modify, ret.
  destruct (saCfgReloaderStopCh w) eqn:Hch; simpl; [discriminate | | discriminate].
  destruct (saCfgReloaderWG w =? 0) eqn:Hwg; simpl.
  - destruct (sasGlobal w); simpl; intros [= <-]; done.
  - destruct (reloader w); simpl; [discriminate | | discriminate].
    destruct (reloaderRun_effect sighups (with_stopCh ClosedChan w))
      as (w2 & Hrun & _ & _ & Hch2 & _).
    rewrite Hrun. simpl in Hch2.
    destruct (saCfgReloaderWG w2 =? 0); simpl; [| discriminate].
    destruct (sasGlobal w2); simpl; intros [= <-]; done.
Qed.

(** X5. Over any series of reloads the attempts counter grows by the number
    of reloads and the error counter by the number of failed loads (both
    modulo 2^64). *)
Theorem reloads_are_counted (ress : list LoadResult) (w : World) :
  isU64 (saCfgReloads w) ->
  isU64 (saCfgReloadErr w) ->
  saCfgReloads (worldOf (reloaderRun ress w))
  = wrapU64 (saCfgReloads w + Z.of_nat (length ress))
  /\ saCfgReloadErr (worldOf (reloaderRun ress w))
     = wrapU64 (saCfgReloadErr w + Z.of_nat (failedLoads ress)).
Proof. apply reloaderRun_counters. Qed.

Lemma reloads_are_counted_witness :
  saCfgReloads
    (worldOf (reloaderRun [inl demoSasAgain; inr "bad yaml"%string; inl demoSasOther]
                demoEnabled))
  = wrapU64 (saCfgReloads demoEnabled
             + Z.of_nat (length [inl demoSasAgain; inr "bad yaml"%string;
                                 inl demoSasOther : LoadResult]))
  /\ saCfgReloadErr
       (worldOf (reloaderRun [inl demoSasAgain; inr "bad yaml"%string; inl demoSasOther]
                   demoEnabled))
     = wrapU64 (saCfgReloadErr demoEnabled
                + Z.of_nat (failedLoads [inl demoSasAgain; inr "bad yaml"%string;
                                         inl demoSasOther])).
Proof.
  apply (reloads_are_counted
           [inl demoSasAgain; inr "bad yaml"%string; inl demoSasOther] demoEnabled);
    unfold isU64; simpl; lia.
Defined.

(** X6. After a series of reloads the success gauge shows the outcome of
    the last one, 1 if its load parsed and 0 if not, whatever the outcomes
    before it; if it parsed, the success timestamp is the clock's. *)
Theorem gauge_shows_last_reload
    (ress : list LoadResult) (res : LoadResult) (w : World) :
  saCfgSuccess (worldOf (reloaderRun (ress ++ [res]) w)) = gaugeAfter res
  /\ (forall a, res = inl a ->
        saCfgTimestamp (worldOf (reloaderRun (ress ++ [res]) w)) = unixTimestamp w).
Proof. apply reloaderRun_last. Qed.

(** X7. A run of the reloader over any series of loads returns, and keeps
    the account of instances: the instances stopped so far together with the
    active one are, up to order, those stopped before, the one active
    before and the ones loaded on the way.  No instance is dropped without a
    stop and none is stopped that was not loaded. *)
Theorem reloads_account_for_every_instance (ress : list LoadResult) (w : World) :
  exists w',
    reloaderRun ress w = Returned tt w'
    /\ saCfgReloaderStopCh w' = saCfgReloaderStopCh w
    /\ stoppedInstances (trace w') ++ activeInstance w'
       ≡ₚ stoppedInstances (trace w) ++ activeInstance w ++ loadedInstances ress.
Proof.
  destruct (reloaderRun_effect ress w) as (w' & Hrun & _ & _ & Hch & _ & _ & _ & Hacc).
  by exists w'.
Qed.

(** X8. If the instances at hand are pairwise distinct (each load builds a
    new one), then after any series of reloads the pointer holds an instance
    that has not been stopped, and no instance has been stopped twice. *)
Theorem active_instance_is_never_stopped
    (ress : list LoadResult) (w : World) (a0 : Aggregators.t) :
  sasGlobal w = Some a0 ->
  NoDup (stoppedInstances (trace w) ++ a0 :: loadedInstances ress) ->
  exists w' a,
    reloaderRun ress w = Returned tt w'
    /\ sasGlobal w' = Some a
    /\ (a ∉ stoppedInstances (trace w'))
    /\ NoDup (stoppedInstances (trace w')).
Proof.
  intros Hptr Hnodup.
  destruct (reloaderRun_effect ress w) as (w' & Hrun & _ & _ & _ & _ & _ & _ & Hacc).
  assert (Hsome : is_Some (sasGlobal w')).
  { pose proof (reloaderRun_pointer_some ress w) as H. rewrite Hrun in H.
    apply H. by rewrite Hptr. }
  destruct Hsome as [a Ha]. exists w', a.
  unfold activeInstance in Hacc. rewrite Ha, Hptr in Hacc. simpl in Hacc.
  rewrite <- Hacc in Hnodup. apply NoDup_app in Hnodup as (Hnd & Hdisj & _).
  repeat split; try done.
  intros Hin. apply (Hdisj a Hin). apply list_elem_of_singleton. reflexivity.
Qed.

Lemma active_instance_is_never_stopped_witness :
  exists w' a,
    reloaderRun [inl demoSasAgain; inr "bad yaml"%string; inl demoSasOther] demoEnabled
    = Returned tt w'
    /\ sasGlobal w' = Some a
    /\ (a ∉ stoppedInstances (trace w'))
    /\ NoDup (stoppedInstances (trace w')).
Proof.
  apply (active_instance_is_never_stopped
           [inl demoSasAgain; inr "bad yaml"%string; inl demoSasOther] demoEnabled demoSas).
  - reflexivity.
  - simpl. repeat (apply NoDup_cons_2 || apply NoDup_nil_2);
      intros H; repeat (apply elem_of_cons in H as [H | H]; [discriminate H |]);
      by apply elem_of_nil in H.
Defined.

(** X9. A whole life of the package: started with a config source that
    parses, any series of reloads served, then shut down while more reloads
    are pending.  The shutdown returns with the channel closed, the reloader
    returned, the wait group at zero and the pointer empty, and the instances
    stopped are, up to order, exactly the one loaded at start and the ones
    loaded by the reloads: every instance is stopped, each once. *)
Theorem lifecycle_stops_every_instance
    (w : World) (s0 : Aggregators.t) (served pending : list LoadResult) :
  streamAggrConfig w <> ""%string ->
  saCfgReloaderWG w = 0 ->
  exists w',
    (_ <- InitStreamAggr (inl s0) ;; _ <- reloaderRun served ;;
     MustStopStreamAggr pending) w = Returned tt w'
    /\ saCfgReloaderStopCh w' = ClosedChan
    /\ reloader w' = Exited
    /\ saCfgReloaderWG w' = 0
    /\ sasGlobal w' = None
    /\ stoppedInstances (trace w')
       ≡ₚ stoppedInstances (trace w) ++ s0 :: loadedInstances (served ++ pending).
Proof.
  intros Hcfg Hwg. unfold bind. rewrite (Init_loaded s0 w Hcfg).
  set (w1 := MkWorld _ _ _ _ _ _ _ _ _ _ _ _).
  destruct (reloaderRun_effect served w1)
    as (w2 & Hrun & _ & _ & Hch2 & _ & _ & Hopen & Hacc2).
  destruct Hopen as [Hrel2 Hwg2]; [done |].
  rewrite Hrun.
  destruct (MustStop_effect pending w2) as (w' & Hstop & Hch & Hrel & Hwg' & Hptr & Hacc).
  { by rewrite Hch2. }
  { rewrite Hwg2. subst w1. simpl. lia. }
  { by rewrite Hrel2. }
  exists w'. do 5 (split; [done |]).
  rewrite Hacc, app_assoc, Hacc2. subst w1. unfold activeInstance. simpl.
  rewrite stoppedInstances_app, loadedInstances_app. simpl.
  by rewrite app_nil_r, <- !app_assoc.
Qed.

Lemma lifecycle_stops_every_instance_witness :
  exists w',
    (_ <- InitStreamAggr (inl demoSas) ;;
     _ <- reloaderRun [inl demoSasAgain; inr "bad yaml"%string] ;;
     MustStopStreamAggr [inl demoSasOther]) (processStart "aggr.yaml" 0 1700000000)
    = Returned tt w'
    /\ saCfgReloaderStopCh w' = ClosedChan
    /\ reloader w' = Exited
    /\ saCfgReloaderWG w' = 0
    /\ sasGlobal w' = None
    /\ stoppedInstances (trace w')
       ≡ₚ stoppedInstances (trace (processStart "aggr.yaml" 0 1700000000))
            ++ demoSas :: loadedInstances ([inl demoSasAgain; inr "bad yaml"%string]
                                            ++ [inl demoSasOther]).
Proof.
  apply (lifecycle_stops_every_instance (processStart "aggr.yaml" 0 1700000000) demoSas
           [inl demoSasAgain; inr "bad yaml"%string] [inl demoSasOther]).
  - discriminate.
  - reflexivity.
Defined.

(** X10. Shutdown is not repeatable: after a shutdown that returned, the
    stop channel is closed, and a second call panics on closing it again,
    before it touches anything else. *)
Theorem second_shutdown_panics
    (first second : list LoadResult) (w w1 : World) :
  MustStopStreamAggr first w = Returned tt w1 ->
  MustStopStreamAggr second w1 = Crashed (GoPanic "close of closed channel") w1.
Proof.
  intros Hfirst. apply MustStop_returned_closed in Hfirst as [Hch _].
  unfold MustStopStreamAggr, bind, gets. by rewrite Hch.
Qed.

Lemma second_shutdown_panics_witness :
  MustStopStreamAggr [inl demoSasOther]
    (MkWorld "aggr.yaml" 0 ClosedChan 0 Exited 0 0 1%float 1700000000 None 1700000060
       [PtrSwap (Some demoSas) None; AggrMustStop demoSas])
  = Crashed (GoPanic "close of closed channel")
      (MkWorld "aggr.yaml" 0 ClosedChan 0 Exited 0 0 1%float 1700000000 None 1700000060
         [PtrSwap (Some demoSas) None; AggrMustStop demoSas]).
Proof.
  apply (second_shutdown_panics [] [inl demoSasOther] demoEnabled). reflexivity.
Defined.

(** X11. A start with a config source that parses installs the loaded
    instance, sets the success gauge and timestamp, registers one task with
    the wait group and starts the reloader; the reload counters are not
    touched. *)
Theorem init_with_config_installs_instance (sas : Aggregators.t) (w : World) :
  streamAggrConfig w <> ""%string ->
  exists w',
    InitStreamAggr (inl sas) w = Returned tt w'
    /\ sasGlobal w' = Some sas
    /\ saCfgSuccess w' = 1%float
    /\ saCfgTimestamp w' = unixTimestamp w
    /\ saCfgReloaderStopCh w' = OpenChan
    /\ saCfgReloaderWG w' = saCfgReloaderWG w + 1
    /\ reloader w' = Running
    /\ saCfgReloads w' = saCfgReloads w
    /\ saCfgReloadErr w' = saCfgReloadErr w
    /\ trace w'
       = trace w ++ [LoadFromFile (streamAggrConfig w) (streamAggrDedupInterval w);
                     PtrStore (Some sas); SpawnReloader].
Proof.
  intros Hcfg. eexists. split; [by apply Init_loaded |]. simpl. by repeat split.
Qed.

Lemma init_with_config_installs_instance_witness :
  exists w',
    InitStreamAggr (inl demoSas) (processStart "aggr.yaml" 0 1700000000) = Returned tt w'
    /\ sasGlobal w' = Some demoSas
    /\ saCfgSuccess w' = 1%float
    /\ saCfgTimestamp w' = unixTimestamp (processStart "aggr.yaml" 0 1700000000)
    /\ saCfgReloaderStopCh w' = OpenChan
    /\ saCfgReloaderWG w' = saCfgReloaderWG (processStart "aggr.yaml" 0 1700000000) + 1
    /\ reloader w' = Running
    /\ saCfgReloads w' = saCfgReloads (processStart "aggr.yaml" 0 1700000000)
    /\ saCfgReloadErr w' = saCfgReloadErr (processStart "aggr.yaml" 0 1700000000)
    /\ trace w'
       = trace (processStart "aggr.yaml" 0 1700000000)
           ++ [LoadFromFile (streamAggrConfig (processStart "aggr.yaml" 0 1700000000))
                 (streamAggrDedupInterval (processStart "aggr.yaml" 0 1700000000));
               PtrStore (Some demoSas); SpawnReloader].
Proof.
  apply (init_with_config_installs_instance demoSas
           (processStart "aggr.yaml" 0 1700000000)).
  discriminate.
Defined.

(** X12. A start with a config source that does not parse is fatal: the
    process exits after one log line, with no instance installed, no
    listener started, nothing registered with the wait group and the success
    gauge and timestamp untouched. *)
Theorem init_load_failure_is_fatal (err : string) (w : World) :
  streamAggrConfig w <> ""%string ->
  InitStreamAggr (inr err) w
  = Crashed (FatalExit "cannot load -streamAggr.config")
      (with_trace
         (trace w ++ [LoadFromFile (streamAggrConfig w) (streamAggrDedupInterval w);
                      Log FATAL "cannot load -streamAggr.config=%q: %s"])
         (with_stopCh OpenChan w))
  /\ sasGlobal (worldOf (InitStreamAggr (inr err) w)) = sasGlobal w
  /\ reloader (worldOf (InitStreamAggr (inr err) w)) = reloader w
  /\ saCfgReloaderWG (worldOf (InitStreamAggr (inr err) w)) = saCfgReloaderWG w
  /\ saCfgSuccess (worldOf (InitStreamAggr (inr err) w)) = saCfgSuccess w
  /\ saCfgTimestamp (worldOf (InitStreamAggr (inr err) w)) = saCfgTimestamp w.
Proof.
  intros Hcfg. apply String.eqb_neq in Hcfg.
  unfold InitStreamAggr, streamaggr_LoadFromFile, bind, emit, modify, gets, ret, crash.
  simpl. rewrite Hcfg. simpl. split; [| done].
  unfold with_trace, with_stopCh. simpl. by rewrite <- !app_assoc.
Qed.

Lemma init_load_failure_is_fatal_witness :
  InitStreamAggr (inr "bad yaml"%string) (processStart "aggr.yaml" 0 1700000000)
  = Crashed (FatalExit "cannot load -streamAggr.config")
      (with_trace
         (trace (processStart "aggr.yaml" 0 1700000000)
            ++ [LoadFromFile (streamAggrConfig (processStart "aggr.yaml" 0 1700000000))
                  (streamAggrDedupInterval (processStart "aggr.yaml" 0 1700000000));
                Log FATAL "cannot load -streamAggr.config=%q: %s"])
         (with_stopCh OpenChan (processStart "aggr.yaml" 0 1700000000)))
  /\ sasGlobal (worldOf (InitStreamAggr (inr "bad yaml"%string)
                           (processStart "aggr.yaml" 0 1700000000)))
     = sasGlobal (processStart "aggr.yaml" 0 1700000000)
  /\ reloader (worldOf (InitStreamAggr (inr "bad yaml"%string)
                          (processStart "aggr.yaml" 0 1700000000)))
     = reloader (processStart "aggr.yaml" 0 1700000000)
  /\ saCfgReloaderWG (worldOf (InitStreamAggr (inr "bad yaml"%string)
                                 (processStart "aggr.yaml" 0 1700000000)))
     = saCfgReloaderWG (processStart "aggr.yaml" 0 1700000000)
  /\ saCfgSuccess (worldOf (InitStreamAggr (inr "bad yaml"%string)
                              (processStart "aggr.yaml" 0 1700000000)))
     = saCfgSuccess (processStart "aggr.yaml" 0 1700000000)
  /\ saCfgTimestamp (worldOf (InitStreamAggr (inr "bad yaml"%string)
                                (processStart "aggr.yaml" 0 1700000000)))
     = saCfgTimestamp (processStart "aggr.yaml" 0 1700000000).
Proof.
  apply (init_load_failure_is_fatal "bad yaml" (processStart "aggr.yaml" 0 1700000000)).
  discriminate.
Defined.

(** ** Checking a configuration *)

(** X13. CheckStreamAggrConfig never crashes and leaves the package state
    alone, whatever it is given: the pointer, the metrics, the channel and
    the wait group are as before.  It reports an error exactly when a config
    source is given and its load fails; without a config source it loads
    nothing; and an instance it loads it stops at once. *)
Theorem check_config_installs_nothing (res : LoadResult) (w : World) :
  samePackageState w (worldOf (CheckStreamAggrConfig res w))
  /\ (exists r,
        CheckStreamAggrConfig res w = Returned r (worldOf (CheckStreamAggrConfig res w))
        /\ (r = None <-> streamAggrConfig w = ""%string \/ exists sas, res = inl sas))
  /\ (streamAggrConfig w = ""%string -> newEvents w (CheckStreamAggrConfig res w) = [])
  /\ (streamAggrConfig w <> ""%string ->
      stoppedInstances (newEvents w (CheckStreamAggrConfig res w)) = loadedInstances [res]
      /\ List.filter writesPointer (newEvents w (CheckStreamAggrConfig res w)) = []).
Proof.
  unfold CheckStreamAggrConfig, streamaggr_LoadFromFile, Aggregators_MustStop, bind, emit,
    modify, gets, ret, newEvents.
  destruct (String.eqb_spec (streamAggrConfig w) "") as [Hcfg | Hcfg]; simpl.
  - split; [apply samePackageState_refl |]. split; [exists None; split; [done | tauto] |].
    split; [intros _; by rewrite drop_all | done].
  - destruct res as [sas | err]; simpl.
    + split; [unfold samePackageState; by destruct w |].
      split; [exists None; split; [done |]; split; [eauto | done] |].
      split; [done |]. intros _. by rewrite <- app_assoc, drop_app_length.
    + split; [unfold samePackageState; by destruct w |].
      split.
      { eexists. split; [reflexivity |].
        split; [discriminate | intros [H | (sas & H)]; [done | discriminate H]]. }
      split; [done |]. intros _. by rewrite drop_app_length.
Qed.

(** ** The feedback writer: the write, and what is left alone *)

Lemma samePackageState_trans (w w1 w2 : World) :
  samePackageState w w1 -> samePackageState w1 w2 -> samePackageState w w2.
Proof.
  unfold samePackageState. intros H1 H2. rewrite <- H1 at 2. rewrite <- H2.
  reflexivity.
Qed.

Lemma buildRows_samePackageState
    (MarshalMetricNameRaw : list byte -> list Label.t -> list byte)
    (writeDataPointErr : InsertCtx.t -> list Label.t -> Z -> float -> option string)
    (tss : list TimeSeries.t) :
  forall t ctx w, InsertCtx.skipStreamAggr ctx = true ->
    samePackageState w
      (worldOf (buildRows MarshalMetricNameRaw writeDataPointErr t ctx tss w)).
Proof.
  induction tss as [|ts tss IH]; intros t ctx w Hskip.
  - apply samePackageState_refl.
  - rewrite buildRows_cons by done.
    destruct (firstValue ts) as [v|]; [| apply samePackageState_refl]. simpl.
    destruct (writeDataPointErr _ _ _ _).
    + simpl. unfold samePackageState. by destruct w.
    + eapply samePackageState_trans; [| by apply IH].
      apply samePackageState_with_trace.
Qed.

(** X14. When every series gets its row built, the feedback writer asks for
    one row per series in order and then writes the batch to storage exactly
    once; if that write fails it logs one error and returns all the same,
    without a second attempt. *)
Theorem feedback_writes_batch_once
    (MarshalMetricNameRaw : list byte -> list Label.t -> list byte)
    (writeDataPointErr : InsertCtx.t -> list Label.t -> Z -> float -> option string)
    (addRowsErr : list MetricRow.t -> option string)
    (tss : list TimeSeries.t) (rows : list MetricRow.t) (w : World) :
  builtFrom MarshalMetricNameRaw writeDataPointErr (flushTimestamp w) [] tss rows ->
  pushAggregateSeries MarshalMetricNameRaw writeDataPointErr addRowsErr tss w
  = Returned tt
      (with_trace
         (trace w ++ concat (map (requestOf (flushTimestamp w)) tss)
                  ++ AddRows rows :: flushLog addRowsErr rows) w)
  /\ length (concat (map (requestOf (flushTimestamp w)) tss)) = length tss
  /\ length rows = length tss
  /\ List.filter isAddRows
       (concat (map (requestOf (flushTimestamp w)) tss)
          ++ AddRows rows :: flushLog addRowsErr rows) = [AddRows rows]
  /\ (length (flushLog addRowsErr rows) <= 1)%nat
  /\ (flushLog addRowsErr rows = [] <-> addRowsErr rows = None).
Proof.
  intros Hbuilt.
  destruct (requests_built _ _ _ _ _ _ Hbuilt) as [Hall Hlen].
  destruct (filter_requests _ Hall) as (HnoAdd & _ & _).
  destruct (rows_built _ _ _ _ _ _ Hbuilt) as (vs & Hvs & Hrows).
  split; [| split; [done | split; [| split; [| split]]]].
  - unfold pushAggregateSeries, bind. rewrite buildAggregateRows_eq.
    destruct (buildRows_built _ _ _ _ _ _ Hbuilt (InsertCtx.Make [] [] true) eq_refl eq_refl)
      as (ctx' & Hmrs & Hskip & Hrun).
    specialize (Hrun [] w). rewrite app_nil_r in Hrun. rewrite Hrun. simpl.
    rewrite Hmrs. unfold emit, modify, ret, flushLog.
    destruct (addRowsErr rows); unfold with_trace; simpl; by rewrite <- !app_assoc.
  - rewrite Hrows. simpl. rewrite length_zip_with.
    apply Forall2_length in Hvs. lia.
  - rewrite List.filter_app, HnoAdd. simpl. unfold flushLog.
    by destruct (addRowsErr rows).
  - unfold flushLog. destruct (addRowsErr rows); simpl; lia.
  - unfold flushLog. by destruct (addRowsErr rows).
Qed.

Lemma feedback_writes_batch_once_witness :
  pushAggregateSeries demoMarshal demoWriteErr demoAddRowsErr demoBuilt demoEnabled
  = Returned tt
      (with_trace
         (trace demoEnabled
            ++ concat (map (requestOf (flushTimestamp demoEnabled)) demoBuilt)
            ++ AddRows [seriesRow demoMarshal (flushTimestamp demoEnabled)
                          (aggrSeries "cpu:1m_sum" 1%float) 1%float;
                        seriesRow demoMarshal (flushTimestamp demoEnabled)
                          (aggrSeries "mem:1m_sum" 2%float) 2%float]
               :: flushLog demoAddRowsErr
                    [seriesRow demoMarshal (flushTimestamp demoEnabled)
                       (aggrSeries "cpu:1m_sum" 1%float) 1%float;
                     seriesRow demoMarshal (flushTimestamp demoEnabled)
                       (aggrSeries "mem:1m_sum" 2%float) 2%float]) demoEnabled)
  /\ length (concat (map (requestOf (flushTimestamp demoEnabled)) demoBuilt))
     = length demoBuilt
  /\ length [seriesRow demoMarshal (flushTimestamp demoEnabled)
               (aggrSeries "cpu:1m_sum" 1%float) 1%float;
             seriesRow demoMarshal (flushTimestamp demoEnabled)
               (aggrSeries "mem:1m_sum" 2%float) 2%float] = length demoBuilt
  /\ List.filter isAddRows
       (concat (map (requestOf (flushTimestamp demoEnabled)) demoBuilt)
          ++ AddRows [seriesRow demoMarshal (flushTimestamp demoEnabled)
                        (aggrSeries "cpu:1m_sum" 1%float) 1%float;
                      seriesRow demoMarshal (flushTimestamp demoEnabled)
                        (aggrSeries "mem:1m_sum" 2%float) 2%float]
             :: flushLog demoAddRowsErr
                  [seriesRow demoMarshal (flushTimestamp demoEnabled)
                     (aggrSeries "cpu:1m_sum" 1%float) 1%float;
                   seriesRow demoMarshal (flushTimestamp demoEnabled)
                     (aggrSeries "mem:1m_sum" 2%float) 2%float])
     = [AddRows [seriesRow demoMarshal (flushTimestamp demoEnabled)
                   (aggrSeries "cpu:1m_sum" 1%float) 1%float;
                 seriesRow demoMarshal (flushTimestamp demoEnabled)
                   (aggrSeries "mem:1m_sum" 2%float) 2%float]]
  /\ (length (flushLog demoAddRowsErr
                [seriesRow demoMarshal (flushTimestamp demoEnabled)
                   (aggrSeries "cpu:1m_sum" 1%float) 1%float;
                 seriesRow demoMarshal (flushTimestamp demoEnabled)
                   (aggrSeries "mem:1m_sum" 2%float) 2%float]) <= 1)%nat
  /\ (flushLog demoAddRowsErr
        [seriesRow demoMarshal (flushTimestamp demoEnabled)
           (aggrSeries "cpu:1m_sum" 1%float) 1%float;
         seriesRow demoMarshal (flushTimestamp demoEnabled)
           (aggrSeries "mem:1m_sum" 2%float) 2%float] = []
      <-> demoAddRowsErr
            [seriesRow demoMarshal (flushTimestamp demoEnabled)
               (aggrSeries "cpu:1m_sum" 1%float) 1%float;
             seriesRow demoMarshal (flushTimestamp demoEnabled)
               (aggrSeries "mem:1m_sum" 2%float) 2%float] = None).
Proof.
  apply (feedback_writes_batch_once demoMarshal demoWriteErr demoAddRowsErr demoBuilt
           [seriesRow demoMarshal (flushTimestamp demoEnabled)
              (aggrSeries "cpu:1m_sum" 1%float) 1%float;
            seriesRow demoMarshal (flushTimestamp demoEnabled)
              (aggrSeries "mem:1m_sum" 2%float) 2%float]
           demoEnabled).
  eapply builtFrom_cons; [reflexivity | reflexivity |].
  eapply builtFrom_cons; [reflexivity | reflexivity |].
  apply builtFrom_nil.
Defined.

(** X15. Called with no series at all, the feedback writer still goes to
    storage: it issues one write, of an empty batch. *)
Theorem feedback_empty_call_writes_empty_batch
    (MarshalMetricNameRaw : list byte -> list Label.t -> list byte)
    (writeDataPointErr : InsertCtx.t -> list Label.t -> Z -> float -> option string)
    (addRowsErr : list MetricRow.t -> option string) (w : World) :
  pushAggregateSeries MarshalMetricNameRaw writeDataPointErr addRowsErr [] w
  = Returned tt (with_trace (trace w ++ AddRows [] :: flushLog addRowsErr []) w).
Proof.
  unfold pushAggregateSeries, buildAggregateRows, bind, gets, emit, modify, ret, flushLog.
  simpl. destruct (addRowsErr []); unfold with_trace; simpl; by rewrite <- ?app_assoc.
Qed.

(** X16. Whatever its outcome, a call of the feedback writer leaves the
    package state alone: it does not read or write the active pointer and
    touches no metric, channel or wait group; only the trace grows. *)
Theorem feedback_keeps_package_state
    (MarshalMetricNameRaw : list byte -> list Label.t -> list byte)
    (writeDataPointErr : InsertCtx.t -> list Label.t -> Z -> float -> option string)
    (addRowsErr : list MetricRow.t -> option string)
    (tss : list TimeSeries.t) (w : World) :
  samePackageState w
    (worldOf (pushAggregateSeries MarshalMetricNameRaw writeDataPointErr addRowsErr tss w))
  /\ List.filter writesPointer
       (newEvents w (pushAggregateSeries MarshalMetricNameRaw writeDataPointErr
                       addRowsErr tss w)) = [].
Proof.
  split.
  - pose proof (buildRows_samePackageState MarshalMetricNameRaw writeDataPointErr tss
                  (flushTimestamp w) (InsertCtx.Make [] [] true) w eq_refl) as Hloop.
    unfold pushAggregateSeries, bind. rewrite buildAggregateRows_eq.
    destruct (buildRows _ _ _ _ tss w) as [[ctx|] w1 | c w1]; simpl in *; try done.
    unfold emit, modify, ret.
    destruct (addRowsErr _); simpl;
      (eapply samePackageState_trans; [exact Hloop |]);
      unfold samePackageState; by destruct w1.
  - destruct (pushAggregateSeries_newEvents MarshalMetricNameRaw writeDataPointErr
                addRowsErr tss w) as (evs & tail & Hevs & -> & Htail).
    rewrite List.filter_app.
    assert (Hnone : List.filter writesPointer evs = []).
    { clear Htail. induction Hevs as [|e evs He _ IH]; [done |].
      simpl. by destruct He as [(ts & v & _ & _ & ->) | ->]. }
    rewrite Hnone. simpl.
    destruct Htail as [-> | (ctx & w1 & _ & _ & _ & ->)]; [done |].
    simpl. unfold flushLog. by destruct (addRowsErr _).
Qed.

(** ** The zeroing loop *)

(** X17. The loop that clears the bitmap keeps its length and leaves every
    entry zero, whatever the slice held before. *)
Theorem zeroing_loop_clears_every_entry (matchIdxs : list byte) :
  length (zeroMatchIdxs matchIdxs) = length matchIdxs
  /\ (forall i, (i < length matchIdxs)%nat -> zeroMatchIdxs matchIdxs !! i = Some x00)
  /\ (forall i, (length matchIdxs <= i)%nat -> zeroMatchIdxs matchIdxs !! i = None).
Proof.
  rewrite zeroMatchIdxs_spec, length_replicate. split; [done |]. split.
  - intros i Hi. by apply lookup_replicate_2.
  - intros i Hi. apply lookup_ge_None. by rewrite length_replicate.
Qed.

(** ** The arenas during the conversion *)

(** X18. The conversion loop over rows that decode fills the arenas with
    exactly what the series it builds are cut from: the label arena grows by
    the labels of the new series, in order and with nothing in between, the
    sample arena by their samples, one per row, and the byte arena by the
    bytes of the decoded names; what the arenas held before stays in
    front. *)
Theorem conversion_fills_arenas
    (UnmarshalRaw : list byte -> MetricName.t + string)
    (loc : streamAggrCtx) (mrs : list MetricRow.t) (mns : list MetricName.t) (w : World) :
  Forall2 (decodesTo UnmarshalRaw) mrs mns ->
  exists loc',
    forRange (pushRow UnmarshalRaw) loc mrs w = Returned loc' w
    /\ tss loc' = tss loc ++ zip_with rowSeries mns mrs
    /\ labels loc'
       = labels loc ++ concat (map TimeSeries.Labels (zip_with rowSeries mns mrs))
    /\ samples loc'
       = samples loc ++ concat (map TimeSeries.Samples (zip_with rowSeries mns mrs))
    /\ length (samples loc') = (length (samples loc) + length mrs)%nat
    /\ buf loc' = buf loc ++ concat (map nameBytes mns).
Proof.
  intros Hdec. revert loc. induction Hdec as [|mr mn mrs mns Hd _ IH]; intros loc.
  - exists loc. simpl. rewrite !app_nil_r. repeat split; try done; lia.
  - simpl forRange. unfold bind. rewrite (pushRow_decoded _ _ _ _ _ Hd).
    destruct (IH (MkCtx mn (tss loc ++ [rowSeries mn mr])
                (labels loc ++ TimeSeries.Labels (rowSeries mn mr))
                (samples loc ++ TimeSeries.Samples (rowSeries mn mr))
                (buf loc ++ nameBytes mn)))
      as (loc' & Hrun & Htss & Hlabels & Hsamples & Hlen & Hbuf).
    exists loc'. split; [done |]. simpl in *.
    rewrite Hlen, Htss, Hlabels, Hsamples, Hbuf, length_app. simpl.
    rewrite <- !app_assoc. simpl. repeat split; try done; lia.
Qed.

Lemma conversion_fills_arenas_witness :
  exists loc',
    forRange (pushRow demoUnmarshalRaw) emptyCtx demoRows demoEnabled
    = Returned loc' demoEnabled
    /\ tss loc' = tss emptyCtx ++ zip_with rowSeries [cpuHost "a"; cpuHost "b"] demoRows
    /\ labels loc'
       = labels emptyCtx
           ++ concat (map TimeSeries.Labels
                          (zip_with rowSeries [cpuHost "a"; cpuHost "b"] demoRows))
    /\ samples loc'
       = samples emptyCtx
           ++ concat (map TimeSeries.Samples
                          (zip_with rowSeries [cpuHost "a"; cpuHost "b"] demoRows))
    /\ length (samples loc') = (length (samples emptyCtx) + length demoRows)%nat
    /\ buf loc' = buf emptyCtx ++ concat (map nameBytes [cpuHost "a"; cpuHost "b"]).
Proof.
  apply (conversion_fills_arenas demoUnmarshalRaw emptyCtx demoRows
           [cpuHost "a"; cpuHost "b"] demoEnabled).
  repeat constructor.
Defined.

(** ** The flush timestamp at the edge of int64 *)

Lemma wrapI64_range (z : Z) : - 2 ^ 63 <= wrapI64 z < 2 ^ 63.
Proof.
  unfold wrapI64. pose proof (Z.mod_pos_bound (z + 2 ^ 63) (2 ^ 64)). lia.
Qed.

(** X19. The timestamp of the feedback writer always fits an int64, and
    for a uint64 clock it is the clock's seconds times 1000 exactly when
    the clock is at most 9223372036854775 seconds; beyond that the
    multiplication wraps around. *)
Theorem flush_timestamp_wraps_beyond_int64 (w : World) :
  isU64 (unixTimestamp w) ->
  - 2 ^ 63 <= flushTimestamp w < 2 ^ 63
  /\ (flushTimestamp w = unixTimestamp w * 1000 <-> unixTimestamp w <= 9223372036854775).
Proof.
  intros [Hlo Hhi]. split; [apply wrapI64_range |]. split.
  - intros Heq. pose proof (wrapI64_range (wrapI64 (unixTimestamp w) * 1000)) as Hr.
    unfold flushTimestamp in Heq. rewrite Heq in Hr. lia.
  - intros Hle. apply flushTimestamp_in_range. lia.
Qed.

Lemma flush_timestamp_wraps_beyond_int64_witness :
  - 2 ^ 63 <= flushTimestamp demoEnabled < 2 ^ 63
  /\ (flushTimestamp demoEnabled = unixTimestamp demoEnabled * 1000
      <-> unixTimestamp demoEnabled <= 9223372036854775).
Proof.
  apply (flush_timestamp_wraps_beyond_int64 demoEnabled).
  unfold isU64. simpl. lia.
Defined.

(** A clock one second past the bound, run on the model: the timestamp has
    wrapped to a negative number. *)
Example flush_timestamp_wrapped :
  flushTimestamp (processStart "" 0 9223372036854776) = -9223372036854775616.
Proof. reflexivity. Qed.

(** ** The reloader and the stop channel *)

